(** * ssl_manager: the certificate exporter and the store cleaner

    A shallow embedding of [ssl_downloader.py] (configuration loading,
    comparison of a fetched certificate with the metadata ledger, export)
    and of [rds_ssl_manager.py] (start-up checks, store cleaning), with the
    properties of the certificate life cycle proved over it. *)

From Stdlib Require Import ZArith NArith String Ascii List Bool Lia DecimalString.
From stdpp Require Import gmap strings list fin_maps.
Import ListNotations.
Open Scope string_scope.
Open Scope Z_scope.
Open Scope list_scope.
#[local] Set Warnings "-register-all".

(** ** Python values, exceptions and effects *)

Module Py.

(** A [str] is its sequence of code points. *)
Abbreviation pystr := (list N).

Definition str (s : string) : pystr := map N_of_ascii (list_ascii_of_string s).
Coercion str : string >-> list.
Arguments str : simpl never.

(** [a.startswith(p)] *)
Fixpoint starts_with (p a : pystr) : bool :=
  match p, a with
  | [], _ => true
  | _ :: _, [] => false
  | x :: p', y :: a' => (x =? y)%N && starts_with p' a'
  end.

(** [p in a] *)
Fixpoint contains_str (p a : pystr) : bool :=
  starts_with p a ||
  match a with
  | [] => false
  | _ :: a' => contains_str p a'
  end.

(** [a.endswith(p)] *)
Definition ends_with (p a : pystr) : bool :=
  starts_with (rev p) (rev a).

(** [a <= b] on [str]: lexicographic, by code point. *)
Fixpoint str_le (a b : pystr) : bool :=
  match a, b with
  | [], _ => true
  | _ :: _, [] => false
  | x :: a', y :: b' =>
      if (x <? y)%N then true
      else if (x =? y)%N then str_le a' b' else false
  end.

(** [sep.join(l)] *)
Fixpoint join (sep : pystr) (l : list pystr) : pystr :=
  match l with
  | [] => []
  | [a] => a
  | a :: l' => a ++ sep ++ join sep l'
  end.

(** The exception classes the two scripts can meet.  [SystemExit] is the
    only one that is not a subclass of [Exception]. *)
Inductive exn : Type :=
| SystemExit (msg : pystr)
| FileNotFoundError
| IsADirectoryError
| PermissionError
| JSONDecodeError
| KeyError (key : pystr)
| TypeError
| AttributeError
| ValueError
| OverflowError
| UnicodeEncodeError
| OSError
| ConnectionError
| CalledProcessError (returncode : Z).

(** [isinstance(e, Exception)] *)
Definition is_Exception (e : exn) : bool :=
  match e with
  | SystemExit _ => false
  | _ => true
  end.

Inductive res (A : Type) : Type :=
| Ok (a : A)
| Raise (e : exn).
Arguments Ok {A} a.
Arguments Raise {A} e.

(** Exit status of the interpreter for the outcome of the main block:
    0 on a normal end, 1 when [SystemExit] carries a message or when any
    other exception is left uncaught. *)
Definition exit_status {A} (r : res A) : Z :=
  match r with
  | Ok _ => 0
  | Raise _ => 1
  end.

(** What the interpreter writes on stderr for [raise SystemExit(msg)]. *)
Definition exit_message {A} (r : res A) : option pystr :=
  match r with
  | Raise (SystemExit msg) => Some msg
  | _ => None
  end.

(** The process ends with [status], having written [msg] on stderr when
    it left through [SystemExit], and leaves the machine as [w]. *)
Definition exits_with {S A} (run : res A * S) (status : Z)
    (msg : option pystr) (w : S) : Prop :=
  exit_status (fst run) = status /\ exit_message (fst run) = msg /\ snd run = w.

(** *** Values read from JSON

    [json.load] yields [None], [bool], [int], [str], [list] and [dict] with
    [str] keys.  Numbers are the integers (the ledger's timestamps are
    integers); a [dict] is kept as its list of items, in insertion order. *)
Inductive json : Type :=
| JNull
| JBool (b : bool)
| JInt (z : Z)
| JStr (s : pystr)
| JList (l : list json)
| JObj (items : list (pystr * json)).

(** [bool(v)] *)
Definition truthy (v : json) : bool :=
  match v with
  | JNull => false
  | JBool b => b
  | JInt z => negb (z =? 0)
  | JStr s => match s with [] => false | _ => true end
  | JList l => match l with [] => false | _ => true end
  | JObj m => match m with [] => false | _ => true end
  end.

(** [bool] is a subclass of [int]: [True] is 1 and [False] is 0. *)
Definition as_int (v : json) : option Z :=
  match v with
  | JBool b => Some (if b then 1 else 0)
  | JInt z => Some z
  | _ => None
  end.

Fixpoint assoc (k : pystr) (m : list (pystr * json)) : option json :=
  match m with
  | [] => None
  | (k', v) :: m' => if bool_decide (k = k') then Some v else assoc k m'
  end.

(** [v[k]] for a [str] key [k] *)
Definition getitem (v : json) (k : pystr) : res json :=
  match v with
  | JObj m => match assoc k m with
              | Some x => Ok x
              | None => Raise (KeyError k)
              end
  | _ => Raise TypeError
  end.

(** [v.get(k)] *)
Definition get (v : json) (k : pystr) : res json :=
  match v with
  | JObj m => match assoc k m with
              | Some x => Ok x
              | None => Ok JNull
              end
  | _ => Raise AttributeError
  end.

(** [a == b] *)
Fixpoint eq (a b : json) {struct a} : bool :=
  match a, b with
  | JNull, JNull => true
  | JBool x, JBool y => Bool.eqb x y
  | JBool x, JInt y => (if x then 1 else 0) =? y
  | JInt x, JBool y => x =? (if y then 1 else 0)
  | JInt x, JInt y => x =? y
  | JStr x, JStr y => bool_decide (x = y)
  | JList xs, JList ys =>
      (fix all2 (xs ys : list json) {struct xs} : bool :=
         match xs, ys with
         | [], [] => true
         | x :: xs', y :: ys' => eq x y && all2 xs' ys'
         | _, _ => false
         end) xs ys
  | JObj m, JObj n =>
      Nat.eqb (length m) (length n) &&
      (fix sub (m : list (pystr * json)) {struct m} : bool :=
         match m with
         | [] => true
         | (k, v) :: m' =>
             match assoc k n with
             | Some w => eq v w
             | None => false
             end && sub m'
         end) m
  | _, _ => false
  end.

(** [a <= b]: defined between numbers, between strings and between lists
    (lexicographic); [TypeError] otherwise. *)
Fixpoint le (a b : json) {struct a} : res bool :=
  match a, b with
  | JBool x, JBool y => Ok ((if x then 1 else 0) <=? (if y then 1 else 0))
  | JBool x, JInt y => Ok ((if x then 1 else 0) <=? y)
  | JInt x, JBool y => Ok (x <=? (if y then 1 else 0))
  | JInt x, JInt y => Ok (x <=? y)
  | JStr x, JStr y => Ok (str_le x y)
  | JList xs, JList ys =>
      (fix lex (xs ys : list json) {struct xs} : res bool :=
         match xs, ys with
         | [], _ => Ok true
         | _ :: _, [] => Ok false
         | x :: xs', y :: ys' => if eq x y then lex xs' ys' else le x y
         end) xs ys
  | _, _ => Raise TypeError
  end.

(** [k in v] for a [str] [k]: a key of a [dict], an item of a [list], a
    substring of a [str]; the other values are not iterable. *)
Definition contains (k : pystr) (v : json) : res bool :=
  match v with
  | JObj m => Ok (match assoc k m with Some _ => true | None => false end)
  | JList l => Ok (existsb (eq (JStr k)) l)
  | JStr s => Ok (contains_str k s)
  | _ => Raise TypeError
  end.

(** [v > n] for an [int] [n] *)
Definition gt_int (v : json) (n : Z) : res bool :=
  match as_int v with
  | Some z => Ok (n <? z)
  | None => Raise TypeError
  end.

(** *** State and exceptions

    A statement runs on a state [S]; what it did before an exception was
    raised stays done. *)
Definition M (S A : Type) : Type := S -> res A * S.

Definition ret {S A} (a : A) : M S A := fun w => (Ok a, w).

Definition bind {S A B} (m : M S A) (k : A -> M S B) : M S B :=
  fun w => match m w with
           | (Ok a, w') => k a w'
           | (Raise e, w') => (Raise e, w')
           end.

Definition raise {S A} (e : exn) : M S A := fun w => (Raise e, w).

Definition lift {S A} (r : res A) : M S A := fun w => (r, w).

(** The body of a [try]: its outcome is handed to the [except] clauses. *)
Definition try {S A} (m : M S A) : M S (res A) :=
  fun w => match m w with (r, w') => (Ok r, w') end.

End Py.

Notation "'let!' x ':=' m 'in' k" := (Py.bind m (fun x => k))
  (at level 10, x pattern, m at level 100, k at level 200).
Notation "m ';;' k" := (Py.bind m (fun _ => k))
  (at level 100, k at level 200, right associativity).

(** ** ssl_downloader.py *)

Module Downloader.
Import Py.

(** What a path of the local machine holds.  A path that is not in the map
    holds nothing and a file can be created there; [readable] and
    [writable] say whether [open] grants the mode.  [NoName] is what a
    path with a null character in it holds: it is the name of no file. *)
Inductive node : Type :=
| Regular (readable writable : bool) (data : pystr)
| Directory
| NoParent
| NoName.

(** The lines and blocks the script prints, one constructor per [print] or
    [print_block] call, with the values interpolated in it.  [MsgBegun m]
    is the beginning of [m], up to a value that could not be printed. *)
Inductive message : Type :=
| MsgTimestamp
| MsgConfigParseError
| MsgPath (path : pystr)
| MsgTraceback
| MsgRequestFailed (status_code : Z) (reason : pystr)
| MsgResponseBody (body : pystr)
| MsgResponseParseError
| MsgNoCertificate
| MsgParsedResponse (data : json)
| MsgNotValidBefore (valid_from : pystr) (fingerprint : json)
| MsgMetadataMissing
| MsgMetadataDecodeError
| MsgMetadataContent (content : pystr)
| MsgException (e : exn)
| MsgOverride
| MsgUpToDate
| MsgExpiresBefore
| MsgReceivedCertificate (fingerprint : json) (valid_until : pystr)
| MsgExistingCertificate (fingerprint : json) (valid_until : pystr)
| MsgReceivedNew (fingerprint : json)
| MsgExporting
| MsgExported (name : pystr) (path : json)
| MsgFailedToExport (name : pystr) (path : json)
| MsgFailedToExportMetadata (path : json)
| MsgShellCommandExecuted
| MsgBegun (m : message).

(** The machine the script runs on: its files, what was printed so far
    and the shell commands run so far. *)
Record world : Type := World {
  disk : gmap pystr node;
  stdout : list message;
  shell : list pystr
}.

(** The answer of the remote server to [requests.get]. *)
Record response : Type := Response {
  status_code : Z;
  reason : pystr;
  content : pystr
}.

(** What the process finds at a file descriptor that it has open: the
    text that reading it to its end gives, when it can be read, and
    whether it takes what is written to it.  The descriptors are taken as
    the process has them when the script starts; that the end of a [with]
    block closes the descriptor it opened is not followed. *)
Record stream : Type := Stream {
  input : option pystr;
  takes : bool
}.

(** What lies outside the script: the [json] and [datetime] modules, the
    remote server, the exit status of a shell command, the encoding of the
    locale and the file descriptors of the process.
    [json_dumps] is [json.dumps(_, indent=4)], [fromtimestamp_isoformat t]
    is [datetime.fromtimestamp(t).isoformat()], [requests_get] is given
    [config['remote_url']], [config['token']] and [config['domain']],
    [encodes s] says whether the encoding that [open] takes from the
    locale has every character of [s], [descriptor n] is what the
    process has open at the file descriptor [n], and [displays v] says
    whether the standard output has every character of [str(v)]. *)
Record env : Type := Env {
  json_loads : pystr -> res json;
  json_dumps : json -> pystr;
  fromtimestamp_isoformat : Z -> res pystr;
  requests_get : json -> json -> json -> res response;
  shell_returncode : pystr -> Z;
  encodes : pystr -> bool;
  descriptor : Z -> option stream;
  displays : json -> bool
}.

Definition print (m : message) : M world unit :=
  fun w => (Ok tt, World (disk w) (stdout w ++ [m]) (shell w)).

(** The world after the script printed [ms]. *)
Definition said (w : world) (ms : list message) : world :=
  World (disk w) (stdout w ++ ms) (shell w).

(** *** Printing a value read from JSON

    A fingerprint, or what the server answered, is printed as it is, and
    the standard output may lack one of its characters: [print] then
    raises.  The paths of the configuration and what is read from a file
    of the machine are taken to be texts that the standard output shows. *)

Section Printing.

Variable E : env.

(** [print(f'...{v}...')]: one text, of which nothing is printed when the
    standard output cannot encode it. *)
Definition print_text (v : json) (m : message) : M world unit :=
  fun w =>
    if displays E v then (Ok tt, said w [m])
    else (Raise UnicodeEncodeError, w).

(** [print('...', v)] and [print_block(f'...{v}...', title='...')]: what
    comes before the text with [str(v)], the first words or the line with
    the title, is printed before that text is encoded. *)
Definition print_after (v : json) (m : message) : M world unit :=
  fun w =>
    if displays E v then (Ok tt, said w [m])
    else (Raise UnicodeEncodeError, said w [MsgBegun m]).

End Printing.

(** *** Files *)

(** What [path] holds on the disk [d]; the empty path names nothing, and
    neither does a path with a null character. *)
Definition holds (d : gmap pystr node) (path : pystr) : option node :=
  match path with
  | [] => Some NoParent
  | _ :: _ => if existsb (N.eqb 0) path then Some NoName else d !! path
  end.

(** A path that can be the name of a file. *)
Definition is_name (path : pystr) : bool :=
  match path with
  | [] => false
  | _ :: _ => negb (existsb (N.eqb 0) path)
  end.

(** The file at [path] receives [data]; a file made by the script can be
    read and written by it. *)
Definition set_data (path data : pystr) (d : gmap pystr node) : gmap pystr node :=
  match holds d path with
  | Some (Regular r w' _) => <[path := Regular r w' data]> d
  | None => <[path := Regular true true data]> d
  | Some _ => d
  end.

(** [open(path, 'w')] succeeds. *)
Definition writable (d : gmap pystr node) (path : pystr) : bool :=
  match holds d path with
  | Some (Regular _ w' _) => w'
  | None => true
  | Some _ => false
  end.

(** A file object open for writing: on a file of the disk, or on a file
    descriptor that the process had open. *)
Inductive file : Type :=
| Named (path : pystr)
| Numbered (fd : Z) (s : stream).

Section Files.

Variable E : env.

(** [open(n, mode)] for an [int]: [n] is taken as a file descriptor, a C
    [int] that is not negative, and the process must have it open. *)
Definition open_descriptor (n : Z) : res stream :=
  if (n <? - 2 ^ 31) || (2 ^ 31 <=? n) then Raise OverflowError
  else if n <? 0 then Raise ValueError
  else match descriptor E n with
       | Some s => Ok s
       | None => Raise OSError
       end.

(** Reading a file descriptor to its end. *)
Definition read_descriptor (n : Z) : res pystr :=
  match open_descriptor n with
  | Ok s => match input s with
            | Some text => Ok text
            | None => Raise OSError
            end
  | Raise e => Raise e
  end.

(** [open(p, 'r')] and reading the whole file.  An [int] names a file
    descriptor, and [True] and [False] are the integers 1 and 0. *)
Definition read_file (p : json) : M world pystr :=
  fun w =>
    match p with
    | JStr path =>
        match holds (disk w) path with
        | None | Some NoParent => (Raise FileNotFoundError, w)
        | Some NoName => (Raise ValueError, w)
        | Some Directory => (Raise IsADirectoryError, w)
        | Some (Regular r _ data) =>
            if r then (Ok data, w) else (Raise PermissionError, w)
        end
    | JInt n => (read_descriptor n, w)
    | JBool b => (read_descriptor (if b then 1 else 0), w)
    | _ => (Raise TypeError, w)
    end.

(** [open(p, 'w')]: a file of the disk is created or truncated. *)
Definition open_write (p : json) : M world file :=
  fun w =>
    match p with
    | JStr path =>
        match holds (disk w) path with
        | Some NoParent => (Raise FileNotFoundError, w)
        | Some NoName => (Raise ValueError, w)
        | Some Directory => (Raise IsADirectoryError, w)
        | Some (Regular _ false _) => (Raise PermissionError, w)
        | Some (Regular _ true _) | None =>
            (Ok (Named path),
             World (set_data path [] (disk w)) (stdout w) (shell w))
        end
    | JInt n =>
        match open_descriptor n with
        | Ok s => (Ok (Numbered n s), w)
        | Raise e => (Raise e, w)
        end
    | JBool b =>
        match open_descriptor (if b then 1 else 0) with
        | Ok s => (Ok (Numbered (if b then 1 else 0) s), w)
        | Raise e => (Raise e, w)
        end
    | _ => (Raise TypeError, w)
    end.

(** [f.write(v)] on a file just opened for writing: [v] must be a [str]
    that the encoding of the locale can encode.  What goes to a file
    descriptor is not on the disk. *)
Definition file_write (f : file) (v : json) : M world unit :=
  fun w =>
    match v with
    | JStr s =>
        if encodes E s then
          match f with
          | Named path =>
              (Ok tt, World (set_data path s (disk w)) (stdout w) (shell w))
          | Numbered _ _ => (Ok tt, w)
          end
        else (Raise UnicodeEncodeError, w)
    | _ => (Raise TypeError, w)
    end.

(** [json.dump(v, f, indent=4)] on a file just opened for writing, for a
    [v] made of values read from JSON: the text holds ASCII characters
    only, which every encoding of a locale has. *)
Definition json_dump (v : json) (f : file) : M world unit :=
  fun w =>
    match f with
    | Named path =>
        (Ok tt,
         World (set_data path (json_dumps E v) (disk w)) (stdout w) (shell w))
    | Numbered _ _ => (Ok tt, w)
    end.

(** The end of a [with] block that wrote to [f]: what was written is
    flushed and the file closed. *)
Definition file_close (f : file) : M world unit :=
  fun w =>
    match f with
    | Named _ => (Ok tt, w)
    | Numbered _ s => if takes s then (Ok tt, w) else (Raise OSError, w)
    end.

End Files.

(** [os.path.exists(path)] *)
Definition path_exists (path : pystr) : M world bool :=
  fun w => (Ok (match holds (disk w) path with
                | Some (Regular _ _ _) | Some Directory => true
                | _ => false
                end), w).

Section Script.

Variable E : env.
(** [int(datetime.now().timestamp())] when the certificate is checked *)
Variable now : Z.

(** [s.replace('T', ' ')] *)
Definition replace_T (s : pystr) : pystr :=
  map (fun c => if (c =? 84)%N then 32%N else c) s.

Definition timestamp2datetime (timestamp : json) : res pystr :=
  match as_int timestamp with
  | Some t =>
      match fromtimestamp_isoformat E t with
      | Ok iso => Ok (replace_T iso)
      | Raise e => Raise e
      end
  | None => Raise TypeError
  end.

Definition params : list pystr :=
  [str "remote_url"; str "token"; str "domain"; str "crt"; str "key";
   str "cab"; str "metadata"].

(** [[param for param in params if param not in config]] *)
Fixpoint missing_params (config : json) (ps : list pystr) : res (list pystr) :=
  match ps with
  | [] => Ok []
  | param :: ps' =>
      match contains param config with
      | Raise e => Raise e
      | Ok present =>
          match missing_params config ps' with
          | Raise e => Raise e
          | Ok rest => Ok (if present then rest else param :: rest)
          end
      end
  end.

Definition newline : pystr := [10%N].

(** The result is the configuration, or [None] after a parse error. *)
Definition load_config (path : pystr) : M world json :=
  let! found := path_exists path in
  if negb found then
    raise (SystemExit
             ("Error: The configuration file does not exist." ++ newline
              ++ "Path: " ++ path))
  else
    let! text := read_file E (JStr path) in
    match json_loads E text with
    | Raise e =>
        if is_Exception e then
          print MsgConfigParseError;;
          print (MsgPath path);;
          print MsgTraceback;;
          ret JNull
        else raise e
    | Ok config =>
        let! missing := lift (missing_params config params) in
        match missing with
        | [] => ret config
        | _ :: _ =>
            raise (SystemExit
                     ("Error: The configuration file is missing the following required fields: "
                      ++ join ", " missing))
        end
    end.

(** The result is the certificate data, or [None] after a failure. *)
Definition download_ssl_data (config : json) : M world json :=
  let! token := lift (getitem config "token") in
  let! remote_url := lift (getitem config "remote_url") in
  let! domain := lift (getitem config "domain") in
  let! res := lift (requests_get E remote_url token domain) in
  if negb (status_code res =? 200) then
    print_text E (JStr (reason res))
      (MsgRequestFailed (status_code res) (reason res));;
    match content res with
    | [] => ret tt
    | _ :: _ =>
        print_after E (JStr (content res)) (MsgResponseBody (content res))
    end;;
    ret JNull
  else
    match json_loads E (content res) with
    | Raise e =>
        if is_Exception e then
          print MsgResponseParseError;;
          print MsgTraceback;;
          print_after E (JStr (content res)) (MsgResponseBody (content res));;
          ret JNull
        else raise e
    | Ok data =>
        let! has_crt := lift (contains "crt" data) in
        if negb has_crt then
          print MsgNoCertificate;;
          print_after E data (MsgParsedResponse data);;
          ret JNull
        else ret data
    end.

(** [with open(config['metadata'], 'r') as file: metadata = json.load(file)] *)
Definition read_metadata (config : json) : M world json :=
  let! path := lift (getitem config "metadata") in
  let! text := read_file E path in
  lift (json_loads E text).

(** The body of the [try] of one round of the loop:
    [with open(config[name], 'w') as file: file.write(cert[name]); print(...)] *)
Definition write_file (config cert : json) (name : pystr) : M world unit :=
  let! path := lift (getitem config name) in
  let! file := open_write E path in
  let! body := lift (getitem cert name) in
  file_write E file body;;
  print (MsgExported name path);;
  file_close file.

(** One round of the loop over [['crt', 'key', 'cab']]; [false] when the
    file is configured and could not be written. *)
Definition export_file (config cert : json) (name : pystr) : M world bool :=
  let! target := lift (get config name) in
  if truthy target then
    let! written := try (write_file config cert name) in
    match written with
    | Ok _ => ret true
    | Raise _ =>
        let! path := lift (getitem config name) in
        print (MsgFailedToExport name path);;
        ret false
    end
  else ret true.

Fixpoint export_files (config cert : json) (names : list pystr) : M world bool :=
  match names with
  | [] => ret true
  | name :: names' =>
      let! exported := export_file config cert name in
      if exported then export_files config cert names' else ret false
  end.

Definition file_names : list pystr := [str "crt"; str "key"; str "cab"].

(** [{k: cert[k] for k in ks}] *)
Fixpoint select_keys (cert : json) (ks : list pystr) : res (list (pystr * json)) :=
  match ks with
  | [] => Ok []
  | k :: ks' =>
      match getitem cert k with
      | Raise e => Raise e
      | Ok v =>
          match select_keys cert ks' with
          | Raise e => Raise e
          | Ok items => Ok ((k, v) :: items)
          end
      end
  end.

Definition metadata_keys : list pystr :=
  [str "domain"; str "valid_from"; str "valid_to"; str "fingerprint"].

(** The body of the [try] around the metadata:
    [with open(config['metadata'], 'w') as file: json.dump(metadata, file, indent=4)] *)
Definition write_metadata (config : json) (items : list (pystr * json))
  : M world unit :=
  let! path := lift (getitem config "metadata") in
  let! file := open_write E path in
  json_dump E (JObj items) file;;
  file_close file.

(** Writing the metadata record; a failure is printed and not raised. *)
Definition export_metadata (config cert : json) : M world unit :=
  let! items := lift (select_keys cert metadata_keys) in
  let! written := try (write_metadata config items) in
  match written with
  | Ok _ => ret tt
  | Raise _ =>
      let! path := lift (getitem config "metadata") in
      print (MsgFailedToExportMetadata path)
  end.

(** The line that logs the new certificate, and the loop over the files. *)
Definition write_files (config cert : json) : M world bool :=
  let! fingerprint := lift (getitem cert "fingerprint") in
  print_after E fingerprint (MsgReceivedNew fingerprint);;
  print MsgExporting;;
  export_files config cert file_names.

(** The export proper, from the line that logs the new certificate to the
    end of [export_ssl_certificate]. *)
Definition export_new (config cert : json) : M world json :=
  let! exported := write_files config cert in
  if exported then
    export_metadata config cert;;
    ret (JBool true)
  else ret (JBool false).

(** The [else] clause of the [try]: the received certificate against the
    metadata just loaded.  [Some v] is [return v]; [None] falls through to
    the export. *)
Definition compare_metadata (cert metadata : json) : M world (option json) :=
  let! known := lift (getitem metadata "fingerprint") in
  let! received := lift (getitem cert "fingerprint") in
  if eq known received then
    print MsgUpToDate;;
    ret (Some JNull)
  else
    let! valid_to := lift (getitem cert "valid_to") in
    let! known_valid_to := lift (getitem metadata "valid_to") in
    let! regress := lift (le valid_to known_valid_to) in
    if regress then
      print MsgExpiresBefore;;
      let! fp := lift (getitem cert "fingerprint") in
      let! cert_valid_to := lift (getitem cert "valid_to") in
      let! until := lift (timestamp2datetime cert_valid_to) in
      print_after E fp (MsgReceivedCertificate fp until);;
      let! known_fp := lift (getitem metadata "fingerprint") in
      let! meta_valid_to := lift (getitem metadata "valid_to") in
      let! known_until := lift (timestamp2datetime meta_valid_to) in
      print_after E known_fp (MsgExistingCertificate known_fp known_until);;
      ret (Some JNull)
    else ret None.

(** The [except] clauses of the [try] around the metadata load. *)
Definition metadata_unavailable (config : json) (e : exn) : M world unit :=
  match e with
  | FileNotFoundError => print MsgMetadataMissing
  | _ =>
      if is_Exception e then
        match e with
        | JSONDecodeError =>
            print MsgMetadataDecodeError;;
            print MsgTraceback;;
            let! path := lift (getitem config "metadata") in
            let! text := read_file E path in
            print (MsgMetadataContent text)
        | _ => print (MsgException e)
        end;;
        print MsgOverride
      else raise e
  end.

(** [sp.run(command, shell=True, check=True)] *)
Definition sp_run (command : pystr) : M world unit :=
  fun w =>
    let w' := World (disk w) (stdout w) (shell w ++ [command]) in
    if shell_returncode E command =? 0 then (Ok tt, w')
    else (Raise (CalledProcessError (shell_returncode E command)), w').

(** The first half of [export_ssl_certificate], up to the line that logs
    the new certificate: the validity window, then the metadata on disk.
    [Some v] is [return v]; [None] falls through to the export. *)
Definition comparator (config cert : json) : M world (option json) :=
  let! valid_from := lift (getitem cert "valid_from") in
  let! early := lift (gt_int valid_from now) in
  if early then
    let! valid_from := lift (getitem cert "valid_from") in
    let! since := lift (timestamp2datetime valid_from) in
    let! fingerprint := lift (getitem cert "fingerprint") in
    print_text E fingerprint (MsgNotValidBefore since fingerprint);;
    ret (Some JNull)
  else
    let! loaded := try (read_metadata config) in
    match loaded with
    | Raise e => metadata_unavailable config e;; ret None
    | Ok metadata => compare_metadata cert metadata
    end.

(** The result is [True] after an export, [False] when a file could not be
    written and [None] when nothing was to be exported. *)
Definition export_ssl_certificate (config cert : json) : M world json :=
  let! decided := comparator config cert in
  match decided with
  | Some v => ret v
  | None => export_new config cert
  end.

(** [if export_ssl_certificate(config, cert) and args.on_export: ...] *)
Definition export_and_notify (config cert : json) (on_export : option pystr)
  : M world unit :=
  let! exported := export_ssl_certificate config cert in
  match on_export with
  | Some ((_ :: _) as command) =>
      if truthy exported then
        print MsgShellCommandExecuted;;
        sp_run command
      else ret tt
  | _ => ret tt
  end.

(** The main block, after the arguments are parsed: [config_path] is
    [--config], [on_export] is [--on-export]. *)
Definition main (config_path : pystr) (on_export : option pystr) : M world unit :=
  print MsgTimestamp;;
  let! config := load_config config_path in
  if truthy config then
    let! cert := download_ssl_data config in
    if truthy cert then export_and_notify config cert on_export
    else ret tt
  else ret tt.

End Script.

(** *** The writes of an export

    What the export stage writes depends on the disk only through the
    paths that can be opened for writing ([ok]); the functions below give
    the result of each step and the writes it makes to the disk, oldest
    first. *)

Definition apply_writes (ws : list (pystr * pystr)) (d : gmap pystr node)
  : gmap pystr node :=
  foldl (fun d' ps => set_data ps.1 ps.2 d') d ws.

(** What a write of [data] makes of what a path holds. *)
Definition put (data : pystr) (o : option node) : option node :=
  match o with
  | Some (Regular r w' _) => Some (Regular r w' data)
  | None => Some (Regular true true data)
  | other => other
  end.

Definition puts (l : list pystr) (o : option node) : option node :=
  foldl (fun o' data => put data o') o l.

(** The data written to [q] by [ws], oldest first. *)
Fixpoint writes_to (q : pystr) (ws : list (pystr * pystr)) : list pystr :=
  match ws with
  | [] => []
  | (p, data) :: ws' =>
      if decide (p = q) then data :: writes_to q ws' else writes_to q ws'
  end.

Section Plan.

Variable E : env.
Variable ok : pystr -> bool.

Definition file_plan (config cert : json) (name : pystr)
  : res bool * list (pystr * pystr) :=
  match get config name with
  | Raise e => (Raise e, [])
  | Ok target =>
      if truthy target then
        match target with
        | JStr path =>
            if ok path then
              match getitem cert name with
              | Ok (JStr body) =>
                  if encodes E body then (Ok true, [(path, []); (path, body)])
                  else (Ok false, [(path, [])])
              | _ => (Ok false, [(path, [])])
              end
            else (Ok false, [])
        | _ =>
            match as_int target with
            | Some n =>
                match open_descriptor E n, getitem cert name with
                | Ok s, Ok (JStr body) => (Ok (encodes E body && takes s), [])
                | _, _ => (Ok false, [])
                end
            | None => (Ok false, [])
            end
        end
      else (Ok true, [])
  end.

Fixpoint files_plan (config cert : json) (names : list pystr)
  : res bool * list (pystr * pystr) :=
  match names with
  | [] => (Ok true, [])
  | name :: names' =>
      match file_plan config cert name with
      | (Ok true, ws) =>
          (fst (files_plan config cert names'),
           ws ++ snd (files_plan config cert names'))
      | other => other
      end
  end.

Definition metadata_plan (config cert : json) : res unit * list (pystr * pystr) :=
  match select_keys cert metadata_keys with
  | Raise e => (Raise e, [])
  | Ok items =>
      match getitem config "metadata" with
      | Raise e => (Raise e, [])
      | Ok (JStr path) =>
          if ok path
          then (Ok tt, [(path, []); (path, json_dumps E (JObj items))])
          else (Ok tt, [])
      | Ok _ => (Ok tt, [])
      end
  end.

Definition export_plan (config cert : json) : res json * list (pystr * pystr) :=
  match getitem cert "fingerprint" with
  | Raise e => (Raise e, [])
  | Ok fingerprint =>
      if negb (displays E fingerprint) then (Raise UnicodeEncodeError, [])
      else
      match files_plan config cert file_names with
      | (Ok true, ws) =>
          match metadata_plan config cert with
          | (Ok _, ws') => (Ok (JBool true), ws ++ ws')
          | (Raise e, ws') => (Raise e, ws ++ ws')
          end
      | (Ok false, ws) => (Ok (JBool false), ws)
      | (Raise e, ws) => (Raise e, ws)
      end
  end.

End Plan.

End Downloader.

(** ** rds_ssl_manager.py

    What the script prints is left out of this part; the message of a
    [SystemExit] is kept. *)

Module RdsManager.
Import Py.

(** The external commands the script runs through the shell. *)
Inductive command : Type :=
| OpensslPkcs12 (path_openssl path_crt path_key path_pfx : pystr)
| CertutilImportpfx (store_name path_pfx : pystr)
| WmicSetCertificate (fingerprint : json)
| CertutilStore (store_name : pystr)
| CertutilDelstore (store_name fingerprint : pystr).

Record completed : Type := Completed {
  returncode : Z;
  output : pystr
}.

(** The Windows machine, with states [H]: what a command does to it and
    prints, [IsUserAnAdmin()], the file tests, reading a file, and
    [datetime.now()].  A naive [datetime] is given by its rank in time. *)
Record host (H : Type) : Type := Host {
  run : command -> H -> completed * H;
  is_user_an_admin : H -> res Z;
  isfile : pystr -> H -> bool;
  isdir : pystr -> H -> bool;
  read : pystr -> H -> res pystr;
  datetime_now : H -> Z
}.
Arguments run {H}.
Arguments is_user_an_admin {H}.
Arguments isfile {H}.
Arguments isdir {H}.
Arguments read {H}.
Arguments datetime_now {H}.

(** The library functions taken as given: [json.loads],
    [datetime.strptime(_, '%m/%d/%Y %I:%M %p')],
    [re.split(r'={3,} Certificate \d+ ={3,}\n', _)], [os.path.dirname] and
    [re.sub(r'\.(?:crt|pem)$', '', _, flags=re.IGNORECASE)]. *)
Record library : Type := Library {
  json_loads : pystr -> res json;
  strptime : pystr -> res Z;
  split_certificates : pystr -> list pystr;
  dirname : pystr -> pystr;
  strip_certificate_suffix : pystr -> pystr
}.

(** The command-line arguments, with their defaults filled in. *)
Record args : Type := Args {
  path_crt : pystr;
  path_key : pystr;
  path_openssl : pystr;
  path_pfx : option pystr;
  path_metadata : pystr;
  store_name : pystr
}.

(** [\s] in a pattern on [str] *)
Definition is_space (c : N) : bool :=
  ((9 <=? c) && (c <=? 13) || (28 <=? c) && (c <=? 32) || (c =? 133)
   || (c =? 160) || (c =? 5760) || (8192 <=? c) && (c <=? 8202)
   || (c =? 8232) || (c =? 8233) || (c =? 8239) || (c =? 8287)
   || (c =? 12288))%N.

Definition not_newline (c : N) : bool := negb (c =? 10)%N.

Definition not_space (c : N) : bool := negb (is_space c).

Fixpoint take_while (f : N -> bool) (s : pystr) : pystr :=
  match s with
  | [] => []
  | c :: s' => if f c then c :: take_while f s' else []
  end.

(** A match of [lit], then of [\s] when [sep] is set, then of one or more
    characters of [cls] (as many as there are), at the start of [s]; the
    result is the group. *)
Definition match_here (lit : pystr) (sep : bool) (cls : N -> bool) (s : pystr)
  : option pystr :=
  if starts_with lit s then
    let rest := drop (length lit) s in
    let after :=
      if sep then
        match rest with
        | c :: rest' => if is_space c then Some rest' else None
        | [] => None
        end
      else Some rest in
    match after with
    | Some r => match take_while cls r with
                | [] => None
                | g => Some g
                end
    | None => None
    end
  else None.

(** [re.search(pattern, s)]: the leftmost match; [None] when there is none. *)
Fixpoint re_search (lit : pystr) (sep : bool) (cls : N -> bool) (s : pystr)
  : option pystr :=
  match match_here lit sep cls s with
  | Some g => Some g
  | None => match s with
            | [] => None
            | _ :: s' => re_search lit sep cls s'
            end
  end.

(** [re.search(r'NotAfter:\s([^\n]+)', cert)] *)
Definition search_not_after : pystr -> option pystr :=
  re_search "NotAfter:" true not_newline.

(** [re.search(r'Subject: CN=([^\n]+)', cert)] *)
Definition search_subject_cn : pystr -> option pystr :=
  re_search "Subject: CN=" false not_newline.

(** [re.search(r'Cert Hash\(sha1\): ([^\s]+)', cert)] *)
Definition search_cert_hash : pystr -> option pystr :=
  re_search "Cert Hash(sha1): " false not_space.

Section Script.

Context {H : Type}.
Variable machine_of : host H.
Variable L : library.

(** The machine and the commands run on it so far, oldest first. *)
Record world : Type := World {
  machine : H;
  issued : list command
}.

(** [sp.run(command, shell=True, check=True, ...)]; the result is
    [process.stdout]. *)
Definition sp_run (c : command) : M world pystr :=
  fun w =>
    let (p, h) := run machine_of c (machine w) in
    let w' := World h (issued w ++ [c]) in
    if returncode p =? 0 then (Ok (output p), w')
    else (Raise (CalledProcessError (returncode p)), w').

(** A call [print_block(..., indent=n)]: [print_block] has the parameters
    [message], [title], [hline_width] and [indent_level], and none named
    [indent]. *)
Definition print_block_indent {A} : M world A := raise TypeError.

Definition has_admin_privileges : M world json :=
  fun w =>
    match is_user_an_admin machine_of (machine w) with
    | Ok n => (Ok (JInt n), w)
    | Raise _ => (Ok JNull, w)
    end.

Definition convert_certificate (path_openssl path_crt path_key path_pfx : pystr)
  : M world json :=
  let! ran := try (sp_run (OpensslPkcs12 path_openssl path_crt path_key path_pfx)) in
  match ran with
  | Ok _ =>
      fun w => if isfile machine_of path_pfx (machine w)
               then (Ok (JBool true), w) else (Ok JNull, w)
  | Raise (CalledProcessError _) => ret JNull
  | Raise e => raise e
  end.

Definition import_certificate (path_pfx store_name : pystr) : M world json :=
  let! ran := try (sp_run (CertutilImportpfx store_name path_pfx)) in
  match ran with
  | Ok stdout =>
      if contains_str " added to store." stdout then ret (JBool true)
      else if contains_str " already in store" stdout then ret (JBool true)
      else ret JNull
  | Raise (CalledProcessError _) => ret JNull
  | Raise e => raise e
  end.

(** The result is the parsed metadata, or [None] after a parse error. *)
Definition load_metadata (path : pystr) : M world json :=
  fun w =>
    match read machine_of path (machine w) with
    | Raise e => (Raise e, w)
    | Ok text =>
        match json_loads L text with
        | Ok v => (Ok v, w)
        | Raise e => if is_Exception e then (Ok JNull, w) else (Raise e, w)
        end
    end.

Definition set_rds_certificate (fingerprint : json) : M world json :=
  let! ran := try (sp_run (WmicSetCertificate fingerprint)) in
  match ran with
  | Ok stdout =>
      if negb (contains_str " update successful" stdout) then ret JNull
      else ret (JBool true)
  | Raise (CalledProcessError _) => ret JNull
  | Raise e => raise e
  end.

Definition delete_certificate (store_name fingerprint : pystr) : M world json :=
  let! ran := try (sp_run (CertutilDelstore store_name fingerprint)) in
  match ran with
  | Ok stdout =>
      (if negb (contains_str fingerprint stdout)
          || negb (contains_str " completed successfully" stdout)
       then print_block_indent else ret tt);;
      ret JNull
  | Raise (CalledProcessError _) => print_block_indent
  | Raise e => raise e
  end.

(** [fingerprint in cert] *)
Definition in_cert (fingerprint : json) (cert : pystr) : res bool :=
  match fingerprint with
  | JStr fp => Ok (contains_str fp cert)
  | _ => Raise TypeError
  end.

(** The body of the loop of [clean_store] for one block of the listing. *)
Definition clean_entry (store_name : pystr) (fingerprint : json) (cert : pystr)
  : M world unit :=
  let! active := lift (in_cert fingerprint cert) in
  if active || negb (contains_str "NotAfter:" cert) then ret tt
  else
    match search_not_after cert with
    | None => raise AttributeError
    | Some not_after =>
        let! not_after := lift (strptime L not_after) in
        let! now := (fun w => (Ok (datetime_now machine_of (machine w)), w)) in
        if not_after <? now then
          match search_subject_cn cert with
          | None => raise AttributeError
          | Some cn =>
              match search_cert_hash cert with
              | None => raise AttributeError
              | Some fp => delete_certificate store_name fp;; ret tt
              end
          end
        else ret tt
    end.

Fixpoint clean_entries (store_name : pystr) (fingerprint : json)
    (certs : list pystr) : M world unit :=
  match certs with
  | [] => ret tt
  | cert :: certs' =>
      clean_entry store_name fingerprint cert;;
      clean_entries store_name fingerprint certs'
  end.

Definition clean_store (store_name : pystr) (fingerprint : json) : M world unit :=
  let! ran := try (sp_run (CertutilStore store_name)) in
  match ran with
  | Ok stdout =>
      if negb (contains_str "CertUtil: -store command completed successfully." stdout)
      then print_block_indent
      else
        match tail (split_certificates L stdout) with
        | [] => ret tt
        | certs => clean_entries store_name fingerprint certs
        end
  | Raise (CalledProcessError _) => print_block_indent
  | Raise e => raise e
  end.

(** What the loop requires of an entry, examined in world [w], before it
    issues the command [c]. *)
Definition expired_entry (store_name : pystr) (fingerprint : json)
    (cert : pystr) (w : world) (c : command) : Prop :=
  exists text t hash,
    in_cert fingerprint cert = Ok false
    /\ contains_str "NotAfter:" cert = true
    /\ search_not_after cert = Some text
    /\ strptime L text = Ok t
    /\ t < datetime_now machine_of (machine w)
    /\ search_cert_hash cert = Some hash
    /\ c = CertutilDelstore store_name hash.

(** [for path in [...]: if not os.path.isfile(path): raise SystemExit(...)] *)
Fixpoint require_files (paths : list pystr) : M world unit :=
  match paths with
  | [] => ret tt
  | path :: paths' =>
      fun w =>
        if isfile machine_of path (machine w) then require_files paths' w
        else (Raise (SystemExit ("Error: File not found! Path: `" ++ path ++ "`")), w)
  end.

Definition quote : pystr := [34%N].

(** The path of the PKCS #12 file: the one given, once checked, or the
    one made from the path of the certificate. *)
Definition pfx_path (a : args) : M world pystr :=
  match path_pfx a with
  | Some ((_ :: _) as p) =>
      if negb (ends_with ".pfx" p) then
        raise (SystemExit
                 ("Error: The path for PKCS #12 certificate file must end with "
                  ++ quote ++ ".pfx" ++ quote ++ " file extension."))
      else
        fun w =>
          if isdir machine_of (dirname L p) (machine w) then (Ok p, w)
          else (Raise (SystemExit
                         ("Error: The path directory for PKCS #12 certificate file not found! Path: `"
                          ++ dirname L p ++ "`")), w)
  | _ => ret (strip_certificate_suffix L (path_crt a) ++ ".pfx")
  end.

Definition format_store_name (name : pystr) : pystr :=
  if contains_str " " name && negb (starts_with quote name)
  then quote ++ name ++ quote else name.

(** Conversion, import, binding and cleaning, each run when the one before
    it succeeded. *)
Definition install (a : args) (pfx store : pystr) : M world unit :=
  let! converted := convert_certificate (path_openssl a) (path_crt a) (path_key a) pfx in
  if truthy converted then
    let! imported := import_certificate pfx store in
    if truthy imported then
      let! metadata := load_metadata (path_metadata a) in
      if truthy metadata then
        let! fingerprint := lift (getitem metadata "fingerprint") in
        let! bound := set_rds_certificate fingerprint in
        if truthy bound then
          let! fingerprint := lift (getitem metadata "fingerprint") in
          clean_store store fingerprint
        else ret tt
      else ret tt
    else ret tt
  else ret tt.

(** The main block, after the arguments are parsed. *)
Definition main (a : args) : M world unit :=
  let! admin := has_admin_privileges in
  if negb (truthy admin) then
    raise (SystemExit
             "Error: Please run the script with administrative privileges. Otherwise, CertUtil cannot add or set the certificate for Remote Desktop Services (RDS).")
  else
    require_files [path_crt a; path_key a; path_metadata a];;
    let! pfx := pfx_path a in
    install a pfx (format_store_name (store_name a)).

End Script.

End RdsManager.

(** ** Sample data

    A machine, a configuration and certificates for the examples: the
    scenarios of the specification and the inputs at which the theorems
    are applied.  The theorems themselves hold for every environment. *)

Module Samples.
Import Py.

Definition nl : pystr := [10%N].

Definition quoted (s : pystr) : pystr := [34%N] ++ s ++ [34%N].

Definition render_value (v : json) : pystr :=
  match v with
  | JStr s => quoted s
  | JInt z => str (NilZero.string_of_int (Z.to_int z))
  | JBool true => "true"
  | JBool false => "false"
  | _ => "null"
  end.

(** The text of a record whose values are strings and integers. *)
Definition render (v : json) : pystr :=
  match v with
  | JObj items =>
      "{" ++ join ", " (map (fun kv => quoted kv.1 ++ ": " ++ render_value kv.2) items)
      ++ "}"
  | _ => render_value v
  end.

Definition record (fingerprint : pystr) (valid_to : Z) : json :=
  JObj [(str "domain", JStr "example.com"); (str "valid_from", JInt 0);
        (str "valid_to", JInt valid_to); (str "fingerprint", JStr fingerprint)].

Definition known_documents : list json :=
  [record "AA" 1000; record "AA" 2000; record "BB" 2000; record "CC" 9999;
   JObj []].

(** A reader for the documents above; any other text is not JSON to it. *)
Definition read_document (text : pystr) : res json :=
  match find (fun d => bool_decide (render d = text)) known_documents with
  | Some d => Ok d
  | None => Raise JSONDecodeError
  end.

Definition two_digits (n : Z) : pystr :=
  [Z.to_N (48 + n / 10); Z.to_N (48 + n mod 10)].

(** The first day of the epoch, in UTC. *)
Definition first_day (t : Z) : res pystr :=
  if (0 <=? t) && (t <? 86400) then
    Ok ("1970-01-01T" ++ two_digits (t / 3600) ++ ":"
        ++ two_digits (t / 60 mod 60) ++ ":" ++ two_digits (t mod 60))
  else Raise OverflowError.

(** UTF-8 has every character but the surrogates. *)
Definition utf8 (s : pystr) : bool :=
  forallb (fun c => (c <? 55296)%N || (57343 <? c)%N) s.

(** The descriptors of a process started with its input at its end: the
    standard input takes nothing, the standard output and the standard
    error are not read from. *)
Definition standard_streams (n : Z) : option Downloader.stream :=
  if n =? 0 then Some (Downloader.Stream (Some []) false)
  else if (n =? 1) || (n =? 2) then Some (Downloader.Stream None true)
  else None.

(** A standard output in UTF-8: of the values read from JSON, only a
    [str] is printed as it is. *)
Definition utf8_output (v : json) : bool :=
  match v with
  | JStr s => utf8 s
  | _ => true
  end.

Definition offline : Downloader.env :=
  Downloader.Env read_document render first_day
    (fun _ _ _ => Raise ConnectionError) (fun _ => 0) utf8 standard_streams
    utf8_output.

Definition config : json :=
  JObj [(str "remote_url", JStr "https://ca.example/api");
        (str "token", JStr "secret");
        (str "domain", JStr "example.com");
        (str "crt", JStr "/ssl/site.crt");
        (str "key", JStr "/ssl/site.key");
        (str "cab", JStr "/ssl/site.cab");
        (str "metadata", JStr "/ssl/metadata.json")].

Definition cert (fingerprint : pystr) (valid_from valid_to : Z) : json :=
  JObj [(str "domain", JStr "example.com");
        (str "crt", JStr "CERTIFICATE");
        (str "key", JStr "PRIVATE KEY");
        (str "cab", JStr "CA BUNDLE");
        (str "valid_from", JInt valid_from);
        (str "valid_to", JInt valid_to);
        (str "fingerprint", JStr fingerprint)].

(** A machine whose only file is the metadata file, holding [text]. *)
Definition with_metadata (text : pystr) : Downloader.world :=
  Downloader.World
    {[ str "/ssl/metadata.json" := Downloader.Regular true true text ]} [] [].

Definition fresh : Downloader.world := Downloader.World ∅ [] [].

(** The metadata file, or the key file, cannot be opened for writing. *)
Definition metadata_read_only : Downloader.world :=
  Downloader.World
    {[ str "/ssl/metadata.json"
       := Downloader.Regular true false (render (record "AA" 1000)) ]} [] [].


(** A machine whose only file is the configuration file, holding [text]. *)
Definition with_config (text : pystr) : Downloader.world :=
  Downloader.World
    {[ str "/ssl/config.json" := Downloader.Regular true true text ]} [] [].

(** *** The Windows machine *)

(** Every command succeeds; a deletion reports the fingerprint deleted. *)
Definition obliging (admin : Z) (files : list pystr) : RdsManager.host unit :=
  RdsManager.Host unit
    (fun c h =>
       match c with
       | RdsManager.CertutilDelstore _ fp =>
           (RdsManager.Completed 0
              (fp ++ nl ++ "CertUtil: -delstore command completed successfully."), h)
       | _ => (RdsManager.Completed 0 [], h)
       end)
    (fun _ => Ok admin)
    (fun path _ => bool_decide (path ∈ files))
    (fun _ _ => true)
    (fun _ _ => Raise FileNotFoundError)
    (fun _ => 1000).

Definition dates (text : pystr) : res Z :=
  if bool_decide (text = str "01/01/2020 12:00 AM") then Ok 500
  else if bool_decide (text = str "01/01/2040 12:00 AM") then Ok 2000
  else Raise ValueError.

Definition plain : RdsManager.library :=
  RdsManager.Library read_document dates (fun _ => []) (fun p => p) (fun p => p).

Definition entry (cn hash : pystr) (not_after : option pystr) : pystr :=
  "Subject: CN=" ++ cn ++ nl ++ "Cert Hash(sha1): " ++ hash ++ nl
  ++ match not_after with
     | Some date => "NotAfter: " ++ date ++ nl
     | None => []
     end.

Definition yesterday : pystr := "01/01/2020 12:00 AM".

Definition listing : list pystr :=
  [entry "old.example" "AA" (Some yesterday);
   entry "forever.example" "BB" None;
   entry "example.com" "CC" (Some yesterday)].

Definition idle : RdsManager.world := RdsManager.World tt [].

Definition arguments : RdsManager.args :=
  RdsManager.Args "/ssl/site.crt" "/ssl/site.key" "openssl.exe" None
                  "/ssl/metadata.json" "My".

End Samples.

(** ** More sample data *)

Module MoreSamples.
Import Py Samples.

(** A reader that also knows the sample configuration and certificate. *)
Definition read_more (text : pystr) : res json :=
  if bool_decide (text = render config) then Ok config
  else if bool_decide (text = render (cert "BB" 0 2000)) then Ok (cert "BB" 0 2000)
  else read_document text.

(** The remote server answers with the certificate BB. *)
Definition answering : Downloader.env :=
  Downloader.Env read_more render first_day
    (fun _ _ _ => Ok (Downloader.Response 200 "OK" (render (cert "BB" 0 2000))))
    (fun _ => 0) utf8 standard_streams utf8_output.

(** Every command fails with status 1. *)
Definition refusing : RdsManager.host unit :=
  RdsManager.Host unit
    (fun _ h => (RdsManager.Completed 1 [], h))
    (fun _ => Ok 1)
    (fun _ _ => true)
    (fun _ _ => true)
    (fun _ _ => Raise FileNotFoundError)
    (fun _ => 1000).



(** The server is there and turns the request down. *)
Definition declining : Downloader.env :=
  Downloader.Env read_more render first_day
    (fun _ _ _ =>
       Ok (Downloader.Response 503 "Service Unavailable" "try again later"))
    (fun _ => 0) utf8 standard_streams utf8_output.


(** A configuration whose certificate path holds a null character. *)
Definition with_null_character : json :=
  JObj [(str "remote_url", JStr "https://ca.example/api");
        (str "token", JStr "secret");
        (str "domain", JStr "example.com");
        (str "crt", JStr ("/ssl/site" ++ [0%N] ++ ".crt"));
        (str "key", JStr "/ssl/site.key");
        (str "cab", JStr "/ssl/site.cab");
        (str "metadata", JStr "/ssl/metadata.json")].

(** A configuration that sends the certificate to the standard error. *)
Definition to_standard_error : json :=
  JObj [(str "remote_url", JStr "https://ca.example/api");
        (str "token", JStr "secret");
        (str "domain", JStr "example.com");
        (str "crt", JInt 2);
        (str "key", JStr "/ssl/site.key");
        (str "cab", JStr "/ssl/site.cab");
        (str "metadata", JStr "/ssl/metadata.json")].

(** A certificate whose private key holds a lone surrogate. *)
Definition cert_with_surrogate : json :=
  JObj [(str "domain", JStr "example.com");
        (str "crt", JStr "CERTIFICATE");
        (str "key", JStr [55296%N]);
        (str "cab", JStr "CA BUNDLE");
        (str "valid_from", JInt 0);
        (str "valid_to", JInt 2000);
        (str "fingerprint", JStr "BB")].

Definition arguments_with_pfx (pfx : pystr) : RdsManager.args :=
  RdsManager.Args "/ssl/site.crt" "/ssl/site.key" "openssl.exe" (Some pfx)
                  "/ssl/metadata.json" "My".

End MoreSamples.

(** ** Properties of the exporter *)

Module DownloaderProofs.
Import Py Downloader.

Ltac monad :=
  unfold bind, lift, ret, raise, try, print, print_text, print_after in *;
  cbn [fst snd] in *.

Lemma world_eta w : World (disk w) (stdout w) (shell w) = w.
Proof. destruct w; reflexivity. Qed.

Lemma get_getitem v k t : get v k = Ok t -> truthy t = true -> getitem v k = Ok t.
Proof.
  destruct v; cbn; try discriminate.
  destruct (assoc k items); intros [= <-]; [reflexivity|discriminate].
Qed.

Ltac split_match :=
  match goal with
  | |- context [displays ?E ?v] => destruct (displays E v) eqn:?
  | |- context [match ?x with _ => _ end] => destruct x eqn:?
  end.

(** *** Writing keeps the permissions *)

Lemma holds_name d q : is_name q = true -> holds d q = d !! q.
Proof.
  destruct q as [|c q]; [discriminate|]. unfold is_name, holds.
  destruct (existsb _ _); [discriminate|reflexivity].
Qed.

Lemma holds_no_name d q :
  is_name q = false -> holds d q = Some NoParent \/ holds d q = Some NoName.
Proof.
  destruct q as [|c q]; [now left|]. unfold is_name, holds.
  destruct (existsb _ _); [now right|discriminate].
Qed.

Lemma holds_no_name_eq d d' q : is_name q = false -> holds d q = holds d' q.
Proof.
  destruct q as [|c q]; [reflexivity|]. unfold is_name, holds.
  destruct (existsb _ _); [reflexivity|discriminate].
Qed.

(** A path that holds a file, or where one can be made, is a name. *)
Lemma holds_is_name d q :
  match holds d q with
  | None | Some (Regular _ _ _) | Some Directory => is_name q = true
  | _ => True
  end.
Proof.
  destruct (is_name q) eqn:Hq.
  - destruct (holds d q) as [[]|]; auto.
  - destruct (holds_no_name d q Hq) as [-> | ->]; exact I.
Qed.

(** No write reaches what the map keeps at a path that is no name. *)
Lemma lookup_set_data_no_name p s d q :
  is_name q = false -> set_data p s d !! q = d !! q.
Proof.
  intros Hq. unfold set_data. pose proof (holds_is_name d p) as Hp.
  destruct (holds d p) as [[]|]; try reflexivity;
    (rewrite lookup_insert_ne; [reflexivity|congruence]).
Qed.

Lemma holds_set_data p s d q :
  holds (set_data p s d) q =
  if decide (p = q) then put s (holds d p) else holds d q.
Proof.
  destruct (is_name q) eqn:Hq.
  - rewrite !(holds_name _ q Hq). unfold set_data.
    destruct (decide (p = q)) as [->|Hne].
    + rewrite (holds_name _ q Hq).
      destruct (d !! q) as [[]|] eqn:Hp; cbn; rewrite ?lookup_insert_eq; auto.
    + destruct (holds d p) as [[]|] eqn:Hp; cbn; rewrite ?lookup_insert_ne; auto.
  - rewrite (holds_no_name_eq (set_data p s d) d q Hq).
    destruct (decide (p = q)) as [->|Hne]; [|reflexivity].
    destruct (holds_no_name d q Hq) as [-> | ->]; reflexivity.
Qed.

Lemma writable_set_data p s d q : writable (set_data p s d) q = writable d q.
Proof.
  unfold writable. rewrite holds_set_data.
  destruct (decide (p = q)) as [<-|]; [|reflexivity].
  destruct (holds d p) as [[]|]; reflexivity.
Qed.

Lemma apply_writes_cons p s ws d :
  apply_writes ((p, s) :: ws) d = apply_writes ws (set_data p s d).
Proof. reflexivity. Qed.

Lemma writable_apply_writes ws d q : writable (apply_writes ws d) q = writable d q.
Proof.
  revert d. induction ws as [|[p s] ws IH]; intros d; [reflexivity|].
  rewrite apply_writes_cons, IH. apply writable_set_data.
Qed.

Lemma apply_writes_app ws ws' d :
  apply_writes (ws ++ ws') d = apply_writes ws' (apply_writes ws d).
Proof. apply foldl_app. Qed.

(** *** Writing the same files again *)

Lemma put_put s t o : put s (put t o) = put s o.
Proof. destruct o as [[]|]; reflexivity. Qed.

Lemma puts_put l s o : l <> [] -> puts l (put s o) = puts l o.
Proof.
  destruct l as [|t l]; [congruence|]. intros _.
  unfold puts. cbn. now rewrite put_put.
Qed.

Lemma puts_idem l o : puts l (puts l o) = puts l o.
Proof.
  revert o. induction l as [|t l IH]; intros o; [reflexivity|].
  change (puts (t :: l) o) with (puts l (put t o)).
  change (puts (t :: l) (puts l (put t o)))
    with (puts l (put t (puts l (put t o)))).
  destruct l as [|u l].
  - cbn. apply put_put.
  - rewrite puts_put by discriminate. apply IH.
Qed.

Lemma holds_apply_writes ws d q :
  holds (apply_writes ws d) q = puts (writes_to q ws) (holds d q).
Proof.
  revert d. induction ws as [|[p s] ws IH]; intros d; [reflexivity|].
  rewrite apply_writes_cons, IH, holds_set_data. cbn [writes_to].
  destruct (decide (p = q)) as [->|]; reflexivity.
Qed.

Lemma lookup_apply_writes_no_name ws d q :
  is_name q = false -> apply_writes ws d !! q = d !! q.
Proof.
  intros Hq. revert d. induction ws as [|[p s] ws IH]; intros d; [reflexivity|].
  rewrite apply_writes_cons, IH. now apply lookup_set_data_no_name.
Qed.

Lemma lookup_apply_writes ws d q :
  is_name q = true -> apply_writes ws d !! q = puts (writes_to q ws) (d !! q).
Proof.
  intros Hq. pose proof (holds_apply_writes ws d q) as Hh.
  now rewrite !(holds_name _ q Hq) in Hh.
Qed.

Lemma apply_writes_idem ws d :
  apply_writes ws (apply_writes ws d) = apply_writes ws d.
Proof.
  apply map_eq. intros q. destruct (is_name q) eqn:Hq.
  - rewrite !lookup_apply_writes by exact Hq. apply puts_idem.
  - now rewrite !lookup_apply_writes_no_name.
Qed.


(** *** The export stage against its plan *)

Section PlanLemmas.

Variable E : env.

Lemma open_write_str path w :
  open_write E (JStr path) w =
  if writable (disk w) path
  then (Ok (Named path), World (set_data path [] (disk w)) (stdout w) (shell w))
  else (fst (open_write E (JStr path) w), w).
Proof.
  unfold open_write, writable.
  destruct (holds (disk w) path) as [[r [] data| | |]|]; reflexivity.
Qed.


(** A path that cannot be opened for writing: [open] raises and leaves
    the machine as it was. *)
Lemma open_write_refused path w :
  writable (disk w) path = false ->
  exists e, open_write E (JStr path) w = (Raise e, w).
Proof.
  unfold open_write, writable.
  destruct (holds (disk w) path) as [[r [] data| | |]|]; try discriminate;
    intros _; eexists; reflexivity.
Qed.

Lemma open_write_str_fails path w :
  (exists e, fst (open_write E (JStr path) w) = Raise e)
  <-> writable (disk w) path = false.
Proof.
  split.
  - intros [e He]. rewrite open_write_str in He.
    destruct (writable (disk w) path); [discriminate|reflexivity].
  - intros Hw. destruct (open_write_refused path w Hw) as [e He].
    exists e. now rewrite He.
Qed.

(** What one round of the loop gives and writes, for a file given by a
    file descriptor. *)
Lemma write_numbered config cert name target n w :
  getitem config name = Ok target ->
  as_int target = Some n ->
  exists out,
    match try (write_file E config cert name) w with
    | (Ok (Ok _), w') =>
        exists s body,
          open_descriptor E n = Ok s /\ getitem cert name = Ok (JStr body)
          /\ encodes E body && takes s = true
          /\ w' = World (disk w) out (shell w)
    | (Ok (Raise _), w') =>
        match open_descriptor E n, getitem cert name with
        | Ok s, Ok (JStr body) => encodes E body && takes s = false
        | _, _ => True
        end
        /\ w' = World (disk w) out (shell w)
    | (Raise _, _) => False
    end.
Proof.
  intros Hget Hn. unfold write_file, file_write, file_close. monad.
  rewrite Hget.
  assert (Hopen : open_write E target w =
                  match open_descriptor E n with
                  | Ok s => (Ok (Numbered n s), w)
                  | Raise e => (Raise e, w)
                  end).
  { destruct target as [|b|z| | |]; try discriminate; cbn in Hn;
      injection Hn as <-; reflexivity. }
  rewrite Hopen.
  destruct (open_descriptor E n) as [s|e];
    [|exists (stdout w); split; [exact I|now rewrite world_eta]].
  destruct (getitem cert name) as [[| | |body| |]|e];
    try (exists (stdout w); split; [exact I|now rewrite world_eta]).
  destruct (encodes E body) eqn:Henc; cbn;
    [|exists (stdout w); split; [reflexivity|now rewrite world_eta]].
  destruct (takes s) eqn:Htakes; cbn; eexists.
  - exists s, body. rewrite Henc, Htakes. repeat split; reflexivity.
  - split; reflexivity.
Qed.

Lemma export_file_plan ok config cert name w :
  (forall p, ok p = writable (disk w) p) ->
  exists out,
    export_file E config cert name w =
    (fst (file_plan E ok config cert name),
     World (apply_writes (snd (file_plan E ok config cert name)) (disk w))
           out (shell w)).
Proof.
  intros Hok. unfold export_file, file_plan.
  unfold bind at 1. unfold lift at 1.
  destruct (get config name) as [target|e] eqn:Hget;
    [|exists (stdout w); cbn; now rewrite world_eta].
  destruct (truthy target) eqn:Ht;
    [|exists (stdout w); cbn; unfold ret; now rewrite world_eta].
  pose proof (get_getitem _ _ _ Hget Ht) as Hitem.
  destruct (as_int target) as [n|] eqn:Hn.
  - destruct (write_numbered config cert name target n w Hitem Hn) as [out Hrun].
    unfold bind. 
    replace (match target with
             | JStr path => _
             | _ => _
             end)
      with (match open_descriptor E n, getitem cert name with
            | Ok s, Ok (JStr body) => (Ok (encodes E body && takes s), @nil (pystr * pystr))
            | _, _ => (Ok false, [])
            end)
      by (destruct target; try discriminate; reflexivity).
    destruct (try (write_file E config cert name) w) as [[[[]|e]|e] w'].
    + destruct Hrun as (s & body & -> & -> & -> & ->). cbn. eexists; reflexivity.
    + destruct Hrun as [Hres ->]. rewrite Hitem. monad.
      exists (out ++ [MsgFailedToExport name target]).
      destruct (open_descriptor E n) as [s|e']; [|reflexivity].
      destruct (getitem cert name) as [[| | |body| |]|e']; try reflexivity.
      rewrite Hres. reflexivity.
    + destruct Hrun.
  - destruct target as [| | |path| |]; try discriminate.
    + unfold write_file. monad. rewrite Hitem.
      rewrite open_write_str, Hok.
      destruct (writable (disk w) path) eqn:Hw.
      * destruct (getitem cert name) as [body|e] eqn:Hbody.
        -- destruct body as [| | |body| |]; cbn; try (eexists; reflexivity).
           destruct (encodes E body); cbn; eexists; reflexivity.
        -- cbn. eexists; reflexivity.
      * destruct (open_write_refused path w Hw) as [e He].
        rewrite He. cbn. eexists; reflexivity.
    + unfold write_file. monad. rewrite Hitem. cbn. eexists; reflexivity.
    + unfold write_file. monad. rewrite Hitem. cbn. eexists; reflexivity.
Qed.

Lemma export_files_plan ok config cert names w :
  (forall p, ok p = writable (disk w) p) ->
  exists out,
    export_files E config cert names w =
    (fst (files_plan E ok config cert names),
     World (apply_writes (snd (files_plan E ok config cert names)) (disk w))
           out (shell w)).
Proof.
  revert w. induction names as [|name names IH]; intros w Hok.
  - exists (stdout w). cbn. now rewrite world_eta.
  - destruct (export_file_plan ok config cert name w Hok) as [out Hfile].
    cbn [export_files files_plan]. unfold bind. rewrite Hfile.
    destruct (file_plan E ok config cert name) as [[[]|e] ws]; cbn [fst snd].
    + edestruct (IH (World (apply_writes ws (disk w)) out (shell w)))
        as [out' Hrest].
      { intros p. cbn. now rewrite writable_apply_writes. }
      rewrite Hrest. cbn. rewrite apply_writes_app. eexists; reflexivity.
    + eexists; reflexivity.
    + eexists; reflexivity.
Qed.

Lemma export_metadata_plan ok config cert w :
  (forall p, ok p = writable (disk w) p) ->
  exists out,
    export_metadata E config cert w =
    (fst (metadata_plan E ok config cert),
     World (apply_writes (snd (metadata_plan E ok config cert)) (disk w))
           out (shell w)).
Proof.
  intros Hok. unfold export_metadata, write_metadata, metadata_plan. monad.
  destruct (select_keys cert metadata_keys) as [items|e];
    [|exists (stdout w); cbn; now rewrite world_eta].
  destruct (getitem config "metadata") as [mp|e] eqn:Hmp;
    [|exists (stdout w); cbn; now rewrite world_eta].
  destruct mp as [|b|n|path| |]; try (eexists; cbn; reflexivity).
  - cbn [open_write]. destruct (open_descriptor E _) as [s|e]; cbn;
      [|eexists; reflexivity].
    destruct (takes s); cbn; [|eexists; reflexivity].
    exists (stdout w). now rewrite world_eta.
  - cbn [open_write]. destruct (open_descriptor E _) as [s|e]; cbn;
      [|eexists; reflexivity].
    destruct (takes s); cbn; [|eexists; reflexivity].
    exists (stdout w). now rewrite world_eta.
  - rewrite open_write_str, Hok.
    destruct (writable (disk w) path) eqn:Hw.
    + cbn. eexists; reflexivity.
    + destruct (open_write_refused path w Hw) as [e He].
      rewrite He. cbn. eexists; reflexivity.
Qed.

Lemma export_new_plan ok config cert w :
  (forall p, ok p = writable (disk w) p) ->
  exists out,
    export_new E config cert w =
    (fst (export_plan E ok config cert),
     World (apply_writes (snd (export_plan E ok config cert)) (disk w))
           out (shell w)).
Proof.
  intros Hok. unfold export_new, write_files, export_plan. monad. unfold said.
  destruct (getitem cert "fingerprint") as [fp|e];
    [|exists (stdout w); cbn; now rewrite world_eta].
  destruct (displays E fp); cbn [negb]; [|eexists; cbn; reflexivity].
  edestruct (export_files_plan ok config cert file_names
               (World (disk w) ((stdout w ++ [MsgReceivedNew fp]) ++ [MsgExporting])
                      (shell w))) as [out Hfiles]; [exact Hok|].
  cbn [disk stdout shell] in *. rewrite Hfiles.
  destruct (files_plan E ok config cert file_names) as [[[]|e] ws]; cbn [fst snd].
  - edestruct (export_metadata_plan ok config cert
                 (World (apply_writes ws (disk w)) out (shell w)))
      as [out' Hmeta].
    { intros p. cbn. now rewrite writable_apply_writes. }
    rewrite Hmeta. cbn [disk shell].
    destruct (metadata_plan E ok config cert) as [[[]|e] ws']; cbn [fst snd];
      rewrite apply_writes_app; eexists; reflexivity.
  - eexists; reflexivity.
  - eexists; reflexivity.
Qed.

End PlanLemmas.

(** *** The comparator reads and prints, and writes nothing *)

Section ComparatorLemmas.

Variable E : env.
Variable now : Z.

Lemma read_file_world p w : snd (read_file E p w) = w.
Proof. unfold read_file. repeat split_match; reflexivity. Qed.




(** Loading the metadata leaves the machine as it is. *)
Lemma read_metadata_world config w : snd (read_metadata E config w) = w.
Proof.
  unfold read_metadata. monad.
  destruct (getitem config "metadata") as [p|e]; [|reflexivity].
  pose proof (read_file_world p w) as Hr.
  destruct (read_file E p w) as [[text|e] w']; cbn in *; subst w'; reflexivity.
Qed.

Lemma read_metadata_eq config w r :
  fst (read_metadata E config w) = r -> read_metadata E config w = (r, w).
Proof.
  intros <-. rewrite <- (read_metadata_world config w) at 3.
  destruct (read_metadata E config w); reflexivity.
Qed.

Lemma metadata_unavailable_frame config e w :
  exists out, snd (metadata_unavailable E config e w) = World (disk w) out (shell w).
Proof.
  unfold metadata_unavailable. monad.
  destruct e; cbn; try (eexists; reflexivity);
    try (exists (stdout w); now rewrite world_eta).
  destruct (getitem config "metadata") as [p|e]; [|eexists; reflexivity].
  pose proof (read_file_world p (World (disk w)
    ((stdout w ++ [MsgMetadataDecodeError]) ++ [MsgTraceback]) (shell w))) as Hr.
  destruct (read_file E p _) as [[text|e] w']; cbn in Hr; subst w';
    eexists; reflexivity.
Qed.

Lemma compare_metadata_frame cert metadata w :
  exists out,
    snd (compare_metadata E cert metadata w) = World (disk w) out (shell w).
Proof.
  unfold compare_metadata. monad. unfold said.
  repeat split_match; cbn; try (eexists; reflexivity);
    exists (stdout w); now rewrite world_eta.
Qed.

Lemma comparator_frame config cert w :
  exists out,
    snd (comparator E now config cert w) = World (disk w) out (shell w).
Proof.
  unfold comparator. monad. unfold said.
  destruct (getitem cert "valid_from") as [vf|e];
    [|exists (stdout w); cbn; now rewrite world_eta].
  destruct (gt_int vf now) as [[]|e].
  - repeat split_match; cbn; try (eexists; reflexivity);
      exists (stdout w); now rewrite world_eta.
  - rewrite (read_metadata_eq config w _ Logic.eq_refl).
    destruct (fst (read_metadata E config w)) as [metadata|e].
    + apply compare_metadata_frame.
    + destruct (metadata_unavailable_frame config e w) as [out Hout].
      destruct (metadata_unavailable E config e w) as [[[]|e'] w']; cbn in *;
        subst w'; eexists; reflexivity.
  - exists (stdout w); cbn; now rewrite world_eta.
Qed.

End ComparatorLemmas.

(** *** What the comparator decides *)

Section Decisions.

Variable E : env.

Lemma up_to_date now config cert w R valid_from known received :
  getitem cert "valid_from" = Ok valid_from ->
  gt_int valid_from now = Ok false ->
  fst (read_metadata E config w) = Ok R ->
  getitem R "fingerprint" = Ok known ->
  getitem cert "fingerprint" = Ok received ->
  eq known received = true ->
  export_ssl_certificate E now config cert w = (Ok JNull, said w [MsgUpToDate]).
Proof.
  intros Hvf Hgt Hload Hk Hr Heq.
  apply read_metadata_eq in Hload.
  unfold export_ssl_certificate, comparator, compare_metadata. monad.
  rewrite Hvf, Hgt, Hload, Hk, Hr, Heq. reflexivity.
Qed.

(** C1: when the fingerprint recorded in the loaded metadata equals the
    fingerprint of a received certificate whose validity has begun, the
    export returns [None] after printing that the certificate is up to
    date; no file is touched and no command is run, whatever the other
    fields of the certificate and of the record hold. *)
Theorem fingerprint_match_keeps now config cert w R valid_from known received :
  getitem cert "valid_from" = Ok valid_from ->
  gt_int valid_from now = Ok false ->
  fst (read_metadata E config w) = Ok R ->
  getitem R "fingerprint" = Ok known ->
  getitem cert "fingerprint" = Ok received ->
  eq known received = true ->
  export_ssl_certificate E now config cert w = (Ok JNull, said w [MsgUpToDate])
  /\ disk (said w [MsgUpToDate]) = disk w
  /\ shell (said w [MsgUpToDate]) = shell w.
Proof.
  intros Hvf Hgt Hload Hk Hr Heq.
  split; [|split; reflexivity].
  exact (up_to_date now config cert w R valid_from known received
           Hvf Hgt Hload Hk Hr Heq).
Qed.

(** C2, as the code has it: a received certificate whose [valid_from] is
    greater than the current time is turned down before the metadata is
    looked at.  What the export gives is the same for every configuration
    and on every machine, no file is touched and no command is run.  When
    the date can be printed and the certificate has a fingerprint that
    the standard output shows, the export returns [None] after the
    not-valid-before error; in every other case it ends with the exception
    raised while the error is put together or printed, and nothing is
    printed. *)
Theorem not_yet_valid_rejects now config cert w valid_from :
  getitem cert "valid_from" = Ok valid_from ->
  gt_int valid_from now = Ok true ->
  (forall config' w',
      fst (export_ssl_certificate E now config' cert w')
      = fst (export_ssl_certificate E now config cert w))
  /\ disk (snd (export_ssl_certificate E now config cert w)) = disk w
  /\ shell (snd (export_ssl_certificate E now config cert w)) = shell w
  /\ (forall since fingerprint,
         timestamp2datetime E valid_from = Ok since ->
         getitem cert "fingerprint" = Ok fingerprint ->
         displays E fingerprint = true ->
         export_ssl_certificate E now config cert w
         = (Ok JNull, said w [MsgNotValidBefore since fingerprint]))
  /\ (forall e,
         timestamp2datetime E valid_from = Raise e ->
         export_ssl_certificate E now config cert w = (Raise e, w))
  /\ ((exists since fingerprint,
          timestamp2datetime E valid_from = Ok since
          /\ getitem cert "fingerprint" = Ok fingerprint
          /\ displays E fingerprint = true)
      \/ exists e, export_ssl_certificate E now config cert w = (Raise e, w)).
Proof.
  intros Hvf Hgt.
  unfold export_ssl_certificate, comparator. monad. rewrite Hvf, Hgt.
  split; [|split; [|split; [|split; [|split]]]].
  - intros config' w'.
    destruct (timestamp2datetime E valid_from); [|reflexivity].
    destruct (getitem cert "fingerprint") as [fp|]; [|reflexivity].
    destruct (displays E fp); reflexivity.
  - destruct (timestamp2datetime E valid_from); [|reflexivity].
    destruct (getitem cert "fingerprint") as [fp|]; [|reflexivity].
    destruct (displays E fp); reflexivity.
  - destruct (timestamp2datetime E valid_from); [|reflexivity].
    destruct (getitem cert "fingerprint") as [fp|]; [|reflexivity].
    destruct (displays E fp); reflexivity.
  - intros since fingerprint -> -> ->. reflexivity.
  - intros e ->. reflexivity.
  - destruct (timestamp2datetime E valid_from) as [since|e];
      [|right; eexists; reflexivity].
    destruct (getitem cert "fingerprint") as [fp|e];
      [|right; eexists; reflexivity].
    destruct (displays E fp) eqn:Hshow; [|right; eexists; reflexivity].
    left. exists since, fp. auto.
Qed.


(** What the load of the metadata yields, by what the path holds. *)
Lemma read_metadata_outcome config path w :
  getitem config "metadata" = Ok (JStr path) ->
  fst (read_metadata E config w) =
  match holds (disk w) path with
  | None | Some NoParent => Raise FileNotFoundError
  | Some NoName => Raise ValueError
  | Some Directory => Raise IsADirectoryError
  | Some (Regular false _ _) => Raise PermissionError
  | Some (Regular true _ data) => json_loads E data
  end.
Proof.
  intros Hp. unfold read_metadata, read_file. monad. rewrite Hp.
  destruct (holds (disk w) path) as [[[] wr data| | |]|]; reflexivity.
Qed.




End Decisions.


(** *** The export stage *)

Section ExportStage.

Variable E : env.


Lemma comparator_some now config cert w v :
  fst (comparator E now config cert w) = Ok (Some v) -> v = JNull.
Proof.
  unfold comparator, compare_metadata. monad.
  repeat (split_match; cbn; try discriminate); intros [= <-]; reflexivity.
Qed.



Lemma files_plan_true ok config cert names :
  (forall name, In name names -> fst (file_plan E ok config cert name) = Ok true) ->
  fst (files_plan E ok config cert names) = Ok true.
Proof.
  induction names as [|n names IH]; intros Hall; [reflexivity|].
  cbn [files_plan]. pose proof (Hall n (or_introl Logic.eq_refl)) as Hn.
  destruct (file_plan E ok config cert n) as [[[]|e] ws]; try discriminate.
  cbn [fst]. apply IH. intros name Hin. apply Hall. now right.
Qed.




(** What makes the write of a file fail: a path that cannot be opened for
    writing, a certificate without a text for the file, a text that the
    encoding of the locale cannot encode. *)
Lemma write_file_fails config cert name path w :
  getitem config name = Ok (JStr path) ->
  writable (disk w) path = false
  \/ (forall body, getitem cert name <> Ok (JStr body))
  \/ (exists body, getitem cert name = Ok (JStr body) /\ encodes E body = false) ->
  exists e, fst (write_file E config cert name w) = Raise e.
Proof.
  intros Hget Hwhy. unfold write_file, file_write. monad. rewrite Hget.
  rewrite open_write_str.
  destruct (writable (disk w) path) eqn:Hw.
  - destruct Hwhy as [Hno|[Hbody|(body & Hbody & Henc)]]; [discriminate| |].
    + destruct (getitem cert name) as [[| | |body| |]|e];
        try (eexists; reflexivity).
      now destruct (Hbody body).
    + rewrite Hbody. cbn. rewrite Henc. eexists; reflexivity.
  - destruct (open_write_refused E path w Hw) as [e He].
    rewrite He. eexists; reflexivity.
Qed.




Lemma first_run_plan now config cert w w1 :
  export_ssl_certificate E now config cert w = (Ok (JBool true), w1) ->
  fst (export_plan E (writable (disk w)) config cert) = Ok (JBool true)
  /\ disk w1 = apply_writes (snd (export_plan E (writable (disk w)) config cert))
                            (disk w).
Proof.
  intros Hfirst.
  assert (Hw1 : exists w0,
             disk w0 = disk w
             /\ export_new E config cert w0 = (Ok (JBool true), w1)).
  { unfold export_ssl_certificate, bind in Hfirst.
    destruct (comparator_frame E now config cert w) as [out Hout].
    pose proof (comparator_some now config cert w) as Hsome.
    destruct (comparator E now config cert w) as [[[v|]|e] w0]; cbn in *.
    - rewrite (Hsome v Logic.eq_refl) in Hfirst. discriminate.
    - exists w0. subst w0. auto.
    - discriminate. }
  destruct Hw1 as (w0 & Hd0 & Hnew).
  destruct (export_new_plan E (writable (disk w)) config cert w0) as [out Hplan].
  { intros p. now rewrite Hd0. }
  rewrite Hnew in Hplan. injection Hplan as Hres Hw1.
  split; [now symmetry|]. rewrite Hw1. cbn. now rewrite Hd0.
Qed.

Lemma writes_to_app q ws ws' :
  writes_to q (ws ++ ws') = writes_to q ws ++ writes_to q ws'.
Proof.
  induction ws as [|[p s] ws IH]; [reflexivity|]. cbn.
  destruct (decide (p = q)); cbn; now rewrite IH.
Qed.

Lemma puts_open l o :
  match o with None | Some (Regular true true _) => True | _ => False end ->
  match puts l o with Some (Regular true true _) | None => True | _ => False end.
Proof.
  revert o. induction l as [|s l IH]; intros o Ho; [exact Ho|].
  change (puts (s :: l) o) with (puts l (put s o)). apply IH.
  destruct o as [[[] [] data| | |]|]; cbn in *; auto.
Qed.

(** After the first run wrote the metadata, the file holds the record. *)
Lemma metadata_after_first_run now config cert w w1 mpath items :
  export_ssl_certificate E now config cert w = (Ok (JBool true), w1) ->
  getitem config "metadata" = Ok (JStr mpath) ->
  match holds (disk w) mpath with
  | None | Some (Regular true true _) => True
  | _ => False
  end ->
  select_keys cert metadata_keys = Ok items ->
  holds (disk w1) mpath = Some (Regular true true (json_dumps E (JObj items))).
Proof.
  intros Hfirst Hmp Hopen Hitems.
  destruct (first_run_plan _ _ _ _ _ Hfirst) as [Hres ->].
  assert (Hok : writable (disk w) mpath = true).
  { unfold writable. destruct (holds (disk w) mpath) as [[[] [] data| | |]|]; tauto. }
  unfold export_plan, metadata_plan in *. rewrite Hitems, Hmp, Hok in *.
  destruct (getitem cert "fingerprint"); [|discriminate].
  destruct (displays E _); cbn [negb] in *; [|discriminate].
  destruct (files_plan E (writable (disk w)) config cert file_names)
    as [[[]|e] ws]; try discriminate.
  cbn [snd]. rewrite holds_apply_writes, writes_to_app. cbn [writes_to].
  destruct (decide (mpath = mpath)); [|congruence].
  unfold puts. rewrite foldl_app. cbn [foldl].
  pose proof (puts_open (writes_to mpath ws) (holds (disk w) mpath) Hopen) as Hp.
  unfold puts in Hp.
  destruct (foldl _ (holds (disk w) mpath) (writes_to mpath ws))
    as [[[] [] data| | |]|]; cbn in *; tauto.
Qed.

(** C7: after a run that exported the certificate, a second run with the
    same certificate and configuration, at any later time, leaves every
    file, and so the metadata record, as the first run left it.  When the
    metadata file can be read and written, the record written reads back
    with an equal fingerprint and the validity has begun, the second run
    is the one that finds the certificate up to date. *)
Theorem export_twice_same_disk now now' config cert w w1 :
  export_ssl_certificate E now config cert w = (Ok (JBool true), w1) ->
  disk (snd (export_ssl_certificate E now' config cert w1)) = disk w1
  /\ forall mpath items R valid_from known received,
       getitem config "metadata" = Ok (JStr mpath) ->
       match holds (disk w) mpath with
       | None | Some (Regular true true _) => True
       | _ => False
       end ->
       select_keys cert metadata_keys = Ok items ->
       json_loads E (json_dumps E (JObj items)) = Ok R ->
       getitem R "fingerprint" = Ok known ->
       getitem cert "fingerprint" = Ok received ->
       eq known received = true ->
       getitem cert "valid_from" = Ok valid_from ->
       gt_int valid_from now' = Ok false ->
       export_ssl_certificate E now' config cert w1
       = (Ok JNull, said w1 [MsgUpToDate]).
Proof.
  intros Hfirst. split.
  - destruct (first_run_plan _ _ _ _ _ Hfirst) as [_ Hdisk1].
    set (ws := snd (export_plan E (writable (disk w)) config cert)) in *.
    unfold export_ssl_certificate, bind.
    destruct (comparator_frame E now' config cert w1) as [out' Hout'].
    destruct (comparator E now' config cert w1) as [[[v|]|e] w1']; cbn in Hout';
      subst w1'; cbn [snd disk]; try reflexivity.
    destruct (export_new_plan E (writable (disk w)) config cert
                (World (disk w1) out' (shell w1))) as [out2 Hplan2].
    { intros p. cbn. now rewrite Hdisk1, writable_apply_writes. }
    rewrite Hplan2. cbn [snd disk]. fold ws.
    rewrite Hdisk1. apply apply_writes_idem.
  - intros mpath items R valid_from known received
      Hmp Hopen Hitems Hround Hk Hr Heq Hvf Hgt.
    pose proof (metadata_after_first_run _ _ _ _ _ _ _ Hfirst Hmp Hopen Hitems)
      as Hfile.
    apply (up_to_date E now' config cert w1 R valid_from known received);
      auto.
    rewrite (read_metadata_outcome E config mpath w1 Hmp), Hfile. exact Hround.
Qed.

End ExportStage.


(** *** The theorems at the sample data *)

Import Samples MoreSamples.

(** Scenario A: the ledger holds AA until 1000, BB until 2000 is received:
    the files and the new record are written. *)
Example scenario_A :
  let run := export_ssl_certificate offline 100 config (cert "BB" 0 2000)
               (with_metadata (render (record "AA" 1000))) in
  fst run = Ok (JBool true)
  /\ disk (snd run) !! str "/ssl/metadata.json"
     = Some (Regular true true (render (record "BB" 2000)))
  /\ disk (snd run) !! str "/ssl/site.crt"
     = Some (Regular true true (str "CERTIFICATE")).
Proof. vm_compute. auto. Qed.

(** Scenario B: the ledger holds AA until 2000, BB until 1500 is received:
    nothing is written. *)
Example scenario_B :
  let w := with_metadata (render (record "AA" 2000)) in
  let run := export_ssl_certificate offline 100 config (cert "BB" 0 1500) w in
  fst run = Ok JNull /\ disk (snd run) = disk w.
Proof. vm_compute. auto. Qed.

(** Scenario C: no metadata file, CC is received: it is exported. *)
Example scenario_C :
  let run := export_ssl_certificate offline 100 config (cert "CC" 0 9999) fresh in
  fst run = Ok (JBool true)
  /\ disk (snd run) !! str "/ssl/metadata.json"
     = Some (Regular true true (render (record "CC" 9999))).
Proof. vm_compute. auto. Qed.

Lemma fingerprint_match_keeps_witness :
  export_ssl_certificate offline 100 config (cert "AA" 0 5000)
    (with_metadata (render (record "AA" 1000)))
  = (Ok JNull, said (with_metadata (render (record "AA" 1000))) [MsgUpToDate]).
Proof.
  apply (fun H1 H2 H3 H4 H5 H6 =>
           proj1 (fingerprint_match_keeps offline 100 config (cert "AA" 0 5000)
           (with_metadata (render (record "AA" 1000))) (record "AA" 1000)
           (JInt 0) (JStr "AA") (JStr "AA") H1 H2 H3 H4 H5 H6));
    vm_compute; reflexivity.
Defined.

Lemma not_yet_valid_rejects_witness :
  disk (snd (export_ssl_certificate offline 100 config (cert "BB" 5000 9999) fresh))
  = disk fresh
  /\ export_ssl_certificate offline 100 config (cert "BB" 5000 9999) fresh
     = (Ok JNull,
        said fresh [MsgNotValidBefore (str "1970-01-01 01:23:20") (JStr "BB")]).
Proof.
  destruct (not_yet_valid_rejects offline 100 config (cert "BB" 5000 9999) fresh
              (JInt 5000)) as (_ & Hdisk & _ & Hmsg & _);
    [vm_compute; reflexivity | vm_compute; reflexivity |].
  split; [exact Hdisk|]. apply Hmsg; vm_compute; reflexivity.
Defined.

(** A certificate whose [valid_from] is 2^63 is not yet valid, and 2^63 is
    no time that [datetime.fromtimestamp] can give as a date: the export
    ends with [OverflowError], and no not-valid-before error is printed. *)
Lemma unprintable_valid_from_raises :
  gt_int (JInt (2 ^ 63)) 100 = Ok true
  /\ export_ssl_certificate offline 100 config
       (cert "BB" (2 ^ 63) (2 ^ 63 + 1000)) fresh
     = (Raise OverflowError, fresh).
Proof. vm_compute. auto. Qed.







(** A text that the encoding of the locale cannot encode is not written:
    the export returns [False] and the command given with [--on-export]
    is not run. *)
Example unencodable_key_fails :
  let run := export_and_notify offline 100 config cert_with_surrogate
               (Some (str "restart")) fresh in
  fst (export_ssl_certificate offline 100 config cert_with_surrogate fresh)
  = Ok (JBool false)
  /\ shell (snd run) = []
  /\ disk (snd run) !! str "/ssl/site.key" = Some (Regular true true [])
  /\ disk (snd run) !! str "/ssl/metadata.json" = None.
Proof. vm_compute. auto. Qed.

(** A fingerprint with a lone surrogate cannot be printed on a standard
    output in UTF-8: the export ends with [UnicodeEncodeError] after the
    first words of the line that logs the new certificate, and no file is
    made. *)
Example unprintable_fingerprint_stops_export :
  export_ssl_certificate offline 100 config (cert [55296%N] 0 2000) fresh
  = (Raise UnicodeEncodeError,
     said fresh [MsgMetadataMissing;
                 MsgBegun (MsgReceivedNew (JStr [55296%N]))]).
Proof. vm_compute. reflexivity. Qed.

(** The same fingerprint on a certificate that is not yet valid: nothing
    is printed of the not-valid-before error. *)
Example unprintable_fingerprint_not_yet_valid :
  export_ssl_certificate offline 100 config (cert [55296%N] 5000 9999) fresh
  = (Raise UnicodeEncodeError, fresh).
Proof. vm_compute. reflexivity. Qed.

(** A path with a null character is the name of no file: the export
    returns [False] and makes no file. *)
Example null_character_in_path :
  let run := export_ssl_certificate offline 100 with_null_character
               (cert "BB" 0 2000) fresh in
  fst run = Ok (JBool false) /\ disk (snd run) = disk fresh.
Proof. vm_compute. auto. Qed.

(** A certificate file given as the file descriptor 2 goes to the standard
    error: the export returns [True] and no file is made for it. *)
Example certificate_to_standard_error :
  let run := export_ssl_certificate offline 100 to_standard_error
               (cert "BB" 0 2000) fresh in
  fst run = Ok (JBool true)
  /\ disk (snd run) !! str "/ssl/site.key"
     = Some (Regular true true (str "PRIVATE KEY"))
  /\ disk (snd run) !! str "/ssl/metadata.json"
     = Some (Regular true true (render (record "BB" 2000))).
Proof. vm_compute. auto. Qed.


Lemma export_twice_same_disk_witness :
  let first := export_ssl_certificate offline 100 config (cert "BB" 0 2000)
                 (with_metadata (render (record "AA" 1000))) in
  disk (snd (export_ssl_certificate offline 200 config (cert "BB" 0 2000) (snd first)))
  = disk (snd first).
Proof.
  intros first.
  apply (export_twice_same_disk offline 100 200 config (cert "BB" 0 2000)
           (with_metadata (render (record "AA" 1000))) (snd first)).
  vm_compute. reflexivity.
Defined.

(** The second run of scenario A finds the certificate up to date. *)
Example scenario_A_again :
  let first := export_ssl_certificate offline 100 config (cert "BB" 0 2000)
                 (with_metadata (render (record "AA" 1000))) in
  export_ssl_certificate offline 200 config (cert "BB" 0 2000) (snd first)
  = (Ok JNull, said (snd first) [MsgUpToDate]).
Proof. vm_compute. reflexivity. Qed.

End DownloaderProofs.

(** ** Properties of the store cleaner *)

Module RdsProofs.
Import Py RdsManager.

Ltac monad := unfold bind, lift, ret, raise, try in *; cbn [fst snd] in *.

(** *** Substrings *)

Lemma starts_with_refl_app p a : starts_with p (p ++ a) = true.
Proof.
  induction p as [|x p IH]; [reflexivity|].
  cbn. now rewrite N.eqb_refl, IH.
Qed.

(** A text contains what stands anywhere inside it. *)
Lemma contains_str_middle p a b : contains_str p (a ++ p ++ b) = true.
Proof.
  induction a as [|x a IH]; cbn.
  - destruct (p ++ b) eqn:Hpb; cbn.
    + destruct p; [reflexivity|discriminate].
    + rewrite <- Hpb, starts_with_refl_app. reflexivity.
  - rewrite IH. apply orb_true_r.
Qed.

Lemma contains_str_tail p x a : contains_str p a = true -> contains_str p (x :: a) = true.
Proof. intros H. cbn. rewrite H. apply orb_true_r. Qed.

Lemma contains_str_drop p n a :
  contains_str p (drop n a) = true -> contains_str p a = true.
Proof.
  revert a. induction n as [|n IH]; intros a; [now rewrite drop_0|].
  destruct a as [|x a]; [auto|]. cbn [drop]. intros H.
  apply contains_str_tail, IH, H.
Qed.

Lemma starts_with_contains p a : starts_with p a = true -> contains_str p a = true.
Proof. intros H. destruct a; cbn in *; now rewrite H. Qed.

Lemma starts_with_take_while f a : starts_with (take_while f a) a = true.
Proof.
  induction a as [|x a IH]; [reflexivity|]. cbn.
  destruct (f x); [|reflexivity]. cbn. now rewrite N.eqb_refl, IH.
Qed.

(** The group of a match is a part of the text searched. *)
Lemma match_here_contains lit sep cls s g :
  match_here lit sep cls s = Some g -> contains_str g s = true.
Proof.
  unfold match_here. destruct (starts_with lit s); [|discriminate].
  set (rest := drop (length lit) s).
  assert (Hrest : forall r, contains_str (take_while cls r) r = true).
  { intros r. apply starts_with_contains, starts_with_take_while. }
  destruct sep.
  - destruct rest as [|c rest'] eqn:Hr; [discriminate|].
    destruct (is_space c); [|discriminate].
    destruct (take_while cls rest') eqn:Hg; [discriminate|]. intros [= <-].
    apply (contains_str_drop _ (length lit)). fold rest. rewrite Hr.
    apply contains_str_tail. rewrite <- Hg. apply Hrest.
  - destruct (take_while cls rest) eqn:Hg; [discriminate|]. intros [= <-].
    apply (contains_str_drop _ (length lit)). fold rest.
    rewrite <- Hg. apply Hrest.
Qed.

Lemma re_search_contains lit sep cls s g :
  re_search lit sep cls s = Some g -> contains_str g s = true.
Proof.
  induction s as [|x s IH]; cbn [re_search].
  - destruct (match_here lit sep cls []) eqn:Hm; [|discriminate].
    intros [= <-]. now apply match_here_contains in Hm.
  - destruct (match_here lit sep cls (x :: s)) eqn:Hm.
    + intros [= <-]. now apply match_here_contains in Hm.
    + intros H. apply contains_str_tail, IH, H.
Qed.

(** *** One entry of the listing *)

Section Cleaner.

Context {H : Type}.
Variable machine_of : host H.
Variable L : library.

Lemma sp_run_issued c w :
  issued (snd (sp_run machine_of c w)) = issued w ++ [c].
Proof.
  unfold sp_run. destruct (run machine_of c (machine w)) as [p h].
  destruct (returncode p =? 0); reflexivity.
Qed.

(** Deleting a certificate runs one command, whatever comes of it. *)
Lemma delete_certificate_issued store_name fp w :
  issued (snd (delete_certificate machine_of store_name fp w))
  = issued w ++ [CertutilDelstore store_name fp].
Proof.
  unfold delete_certificate, print_block_indent. monad.
  pose proof (sp_run_issued (CertutilDelstore store_name fp) w) as Hrun.
  destruct (sp_run machine_of (CertutilDelstore store_name fp) w)
    as [[stdout|e] w']; cbn in *.
  - destruct (negb (contains_str fp stdout)
              || negb (contains_str " completed successfully" stdout));
      exact Hrun.
  - destruct e; exact Hrun.
Qed.

Lemma clean_entry_issued store_name fingerprint cert w :
  snd (clean_entry machine_of L store_name fingerprint cert w) = w
  \/ exists c,
       issued (snd (clean_entry machine_of L store_name fingerprint cert w))
       = issued w ++ [c]
       /\ expired_entry machine_of L store_name fingerprint cert w c.
Proof.
  unfold clean_entry. monad.
  destruct (in_cert fingerprint cert) as [[]|e] eqn:Hactive; cbn; auto.
  destruct (contains_str "NotAfter:" cert) eqn:Hhas; cbn; auto.
  destruct (search_not_after cert) as [text|] eqn:Htext; cbn; auto.
  destruct (strptime L text) as [t|e] eqn:Ht; cbn; auto.
  destruct (t <? datetime_now machine_of (machine w)) eqn:Hlt; cbn; auto.
  destruct (search_subject_cn cert) as [cn|]; cbn; auto.
  destruct (search_cert_hash cert) as [hash|] eqn:Hhash; cbn; auto.
  right. exists (CertutilDelstore store_name hash). split.
  - pose proof (delete_certificate_issued store_name hash w) as Hdel.
    destruct (delete_certificate machine_of store_name hash w) as [[v|e] w'];
      exact Hdel.
  - exists text, t, hash. apply Z.ltb_lt in Hlt. auto 10.
Qed.


(** C10: the test for the active certificate is whether the fingerprint
    stands anywhere in the text of the entry: an entry whose text holds it,
    between whatever comes before and after, is passed over, and neither
    its date is read nor a command issued. *)
Theorem active_test_is_containment store_name fp cert w :
  contains_str fp cert = true ->
  clean_entry machine_of L store_name (JStr fp) cert w = (Ok tt, w)
  /\ forall before after,
       clean_entry machine_of L store_name (JStr fp) (before ++ fp ++ after) w
       = (Ok tt, w).
Proof.
  intros Hin. unfold clean_entry. monad. cbn [in_cert]. rewrite Hin.
  split; [reflexivity|]. intros before after.
  now rewrite contains_str_middle.
Qed.

End Cleaner.


(** *** The theorems at the sample data *)

Import Samples.

(** Scenario D: of an expired entry AA, an entry BB without expiration
    and the expired active entry CC, AA alone is deleted. *)
Example scenario_D :
  clean_entries (obliging 1 []) plain "My" (JStr "CC") listing idle
  = (Ok tt, World tt [CertutilDelstore "My" "AA"]).
Proof. vm_compute. reflexivity. Qed.


(** An expired entry of another certificate whose subject holds the
    active fingerprint is kept; with another active fingerprint it is
    deleted. *)
Lemma active_test_is_containment_witness :
  search_cert_hash (entry "CC.example" "ZZ" (Some yesterday)) = Some (str "ZZ")
  /\ clean_entry (obliging 1 []) plain "My" (JStr "CC")
       (entry "CC.example" "ZZ" (Some yesterday)) idle = (Ok tt, idle)
  /\ clean_entry (obliging 1 []) plain "My" (JStr "QQ")
       (entry "CC.example" "ZZ" (Some yesterday)) idle
     = (Ok tt, World tt [CertutilDelstore "My" "ZZ"]).
Proof.
  split; [vm_compute; reflexivity|]. split; [|vm_compute; reflexivity].
  apply (active_test_is_containment (obliging 1 []) plain "My" (str "CC")).
  vm_compute. reflexivity.
Defined.

End RdsProofs.

(** ** Start-up failures of the two scripts *)

Module StartupProofs.
Import Py.

Section Startup.

Variable E : Downloader.env.
Variable now : Z.
Context {H : Type}.
Variable machine_of : RdsManager.host H.
Variable L : RdsManager.library.

Lemma read_file_exists path w text :
  fst (Downloader.read_file E (JStr path) w) = Ok text ->
  Downloader.path_exists path w = (Ok true, w)
  /\ Downloader.read_file E (JStr path) w = (Ok text, w).
Proof.
  unfold Downloader.read_file, Downloader.path_exists.
  destruct (Downloader.holds (Downloader.disk w) path) as [[[] wr data| | |]|]; cbn;
    try discriminate.
  intros [= ->]. auto.
Qed.

(** The fields reported missing are the required fields that are not
    keys of the configuration. *)
Lemma missing_params_dict items ps :
  Downloader.missing_params (JObj items) ps
  = Ok (List.filter
          (fun p => match assoc p items with Some _ => false | None => true end)
          ps).
Proof.
  induction ps as [|p ps IH]; [reflexivity|].
  cbn. rewrite IH. destruct (assoc p items); reflexivity.
Qed.



End Startup.

Import Samples.



End StartupProofs.

(** ** Further properties of the exporter *)

Module DownloaderExtras.
Import Py Downloader DownloaderProofs.

Ltac monad :=
  unfold bind, lift, ret, raise, try, print, print_text, print_after in *;
  cbn [fst snd] in *.

Section Loading.

Variable E : env.

(** [load_config] hands back a configuration read as a dictionary exactly
    when each of the seven required keys is present; the machine is then
    left as it was, nothing being printed. *)
Theorem load_config_accepts path w text items :
  fst (read_file E (JStr path) w) = Ok text ->
  json_loads E text = Ok (JObj items) ->
  load_config E path w = (Ok (JObj items), w)
  <-> forall param, In param params -> assoc param items <> None.
Proof.
  intros Hread Hloads.
  destruct (StartupProofs.read_file_exists E path w text Hread) as [Hex Hfile].
  unfold load_config. monad. rewrite Hex. cbn [negb].
  rewrite Hfile, Hloads, StartupProofs.missing_params_dict.
  set (absent := fun p => match assoc p items with Some _ => false | None => true end).
  destruct (List.filter absent params) as [|m ms] eqn:Hf.
  - split; [|reflexivity]. intros _ param Hin Hnone.
    assert (Hm : In param (List.filter absent params)).
    { apply filter_In. split; [exact Hin|]. unfold absent. now rewrite Hnone. }
    rewrite Hf in Hm. destruct Hm.
  - split; [discriminate|]. intros Hall. exfalso.
    assert (Hm : In m (List.filter absent params)) by (rewrite Hf; now left).
    apply filter_In in Hm. destruct Hm as [Hin Habs].
    apply (Hall m Hin). unfold absent in Habs.
    destruct (assoc m items); [discriminate|reflexivity].
Qed.

(** [load_config] writes no file and runs no command, whatever it is
    given and however it ends. *)
Lemma load_config_frame path w :
  disk (snd (load_config E path w)) = disk w
  /\ shell (snd (load_config E path w)) = shell w.
Proof.
  unfold load_config, path_exists. monad.
  destruct (negb _); [split; reflexivity|].
  pose proof (read_file_world E (JStr path) w) as Hr.
  destruct (read_file E (JStr path) w) as [[text|e] w']; cbn in Hr; subst w';
    [|split; reflexivity].
  destruct (json_loads E text) as [config|e].
  - destruct (missing_params config params) as [[|m ms]|e]; split; reflexivity.
  - destruct (is_Exception e); split; reflexivity.
Qed.

Lemma download_outcome config w :
  disk (snd (download_ssl_data E config w)) = disk w
  /\ shell (snd (download_ssl_data E config w)) = shell w
  /\ forall data,
       fst (download_ssl_data E config w) = Ok data ->
       data = JNull \/ contains "crt" data = Ok true.
Proof.
  unfold download_ssl_data. monad.
  destruct (getitem config "token"); [|repeat split; discriminate].
  destruct (getitem config "remote_url"); [|repeat split; discriminate].
  destruct (getitem config "domain"); [|repeat split; discriminate].
  destruct (requests_get E _ _ _) as [res|e]; [|repeat split; discriminate].
  unfold said. destruct (negb (status_code res =? 200)).
  - destruct (displays E (JStr (reason res))); cbn;
      [|repeat split; discriminate].
    destruct (content res) as [|c body]; cbn.
    + repeat split; intros data [= <-]; now left.
    + destruct (displays E _); cbn; repeat split; try discriminate;
        intros data [= <-]; now left.
  - destruct (json_loads E (content res)) as [data|e].
    + destruct (contains "crt" data) as [[]|e] eqn:Hc; cbn.
      * repeat split. intros d [= <-]; auto.
      * destruct (displays E data); cbn; repeat split; try discriminate;
          intros d [= <-]; auto.
      * repeat split; discriminate.
    + destruct (is_Exception e); cbn; [|repeat split; discriminate].
      destruct (displays E _); cbn; repeat split; try discriminate;
        intros data [= <-]; now left.
Qed.

(** What [download_ssl_data] returns is [None] or holds ['crt']; it
    writes no file and runs no command. *)
Theorem download_yields_certificate config w :
  disk (snd (download_ssl_data E config w)) = disk w
  /\ shell (snd (download_ssl_data E config w)) = shell w
  /\ forall data,
       fst (download_ssl_data E config w) = Ok data ->
       data = JNull \/ contains "crt" data = Ok true.
Proof. exact (download_outcome config w). Qed.

End Loading.


Section Exporting.

Variable E : env.

(** The comparator falls through, silently, when the loaded record has
    another fingerprint and the received certificate expires strictly
    later: the export stage runs on the machine as it was. *)
Theorem later_expiry_replaces now config cert w R valid_from known received
    valid_to known_valid_to :
  getitem cert "valid_from" = Ok valid_from ->
  gt_int valid_from now = Ok false ->
  fst (read_metadata E config w) = Ok R ->
  getitem R "fingerprint" = Ok known ->
  getitem cert "fingerprint" = Ok received ->
  eq known received = false ->
  getitem cert "valid_to" = Ok valid_to ->
  getitem R "valid_to" = Ok known_valid_to ->
  le valid_to known_valid_to = Ok false ->
  comparator E now config cert w = (Ok None, w)
  /\ export_ssl_certificate E now config cert w = export_new E config cert w.
Proof.
  intros Hvf Hgt Hload Hk Hr Hne Hvt Hkvt Hle.
  apply read_metadata_eq in Hload.
  unfold export_ssl_certificate, comparator, compare_metadata. monad.
  rewrite Hvf, Hgt, Hload, Hk, Hr, Hne, Hvt, Hkvt, Hle. split; reflexivity.
Qed.

Lemma export_plan_result ok config cert v :
  fst (export_plan E ok config cert) = Ok v -> v = JBool true \/ v = JBool false.
Proof.
  unfold export_plan.
  destruct (getitem cert "fingerprint"); [|discriminate].
  destruct (displays E _); cbn [negb] in *; [|discriminate].
  destruct (files_plan E ok config cert file_names) as [[[]|e] ws];
    try discriminate.
  - destruct (metadata_plan E ok config cert) as [[[]|e] ws']; try discriminate.
    intros [= <-]; now left.
  - intros [= <-]; now right.
Qed.

(** The export stage ends with [True] or [False], never with [None]. *)
Lemma export_new_result config cert w v :
  fst (export_new E config cert w) = Ok v -> v = JBool true \/ v = JBool false.
Proof.
  destruct (export_new_plan E (writable (disk w)) config cert w) as [out Hplan];
    [reflexivity|].
  rewrite Hplan. apply export_plan_result.
Qed.

Lemma export_shell now config cert w :
  shell (snd (export_ssl_certificate E now config cert w)) = shell w.
Proof.
  unfold export_ssl_certificate, bind.
  destruct (comparator_frame E now config cert w) as [out Hout].
  destruct (comparator E now config cert w) as [[[v|]|e] w0]; cbn in Hout;
    subst w0; try reflexivity.
  edestruct (export_new_plan E (writable (disk w)) config cert) as [out' Hplan];
    [|rewrite Hplan; reflexivity].
  reflexivity.
Qed.

Lemma export_outcome now config cert w :
  (forall v,
      fst (export_ssl_certificate E now config cert w) = Ok v ->
      v = JNull \/ v = JBool false \/ v = JBool true)
  /\ shell (snd (export_ssl_certificate E now config cert w)) = shell w
  /\ (fst (export_ssl_certificate E now config cert w) = Ok JNull ->
      disk (snd (export_ssl_certificate E now config cert w)) = disk w)
  /\ (forall e,
         fst (comparator E now config cert w) = Raise e ->
         fst (export_ssl_certificate E now config cert w) = Raise e
         /\ disk (snd (export_ssl_certificate E now config cert w)) = disk w).
Proof.
  split; [|split; [apply export_shell|]].
  - intros v. unfold export_ssl_certificate, bind.
    pose proof (comparator_some E now config cert w) as Hsome.
    destruct (comparator E now config cert w) as [[[v0|]|e] w0]; cbn in *.
    + intros [= <-]. left. now apply Hsome.
    + intros Hv. right. destruct (export_new_result _ _ _ _ Hv); auto.
    + discriminate.
  - unfold export_ssl_certificate, bind.
    destruct (comparator_frame E now config cert w) as [out Hout].
    destruct (comparator E now config cert w) as [[[v0|]|e] w0]; cbn in *;
      subst w0.
    + split; [reflexivity|]. intros e; discriminate.
    + split; [|intros e; discriminate].
      intros Hv. destruct (export_new_result _ _ _ _ Hv); discriminate.
    + split; [discriminate|]. intros e' [= <-]. split; reflexivity.
Qed.

(** [export_ssl_certificate] returns [None], [False] or [True]; it never
    runs a command; and when it returns [None], or raises before the export
    stage is reached, every file is as it was. *)
Theorem none_means_nothing_written now config cert w :
  (forall v,
      fst (export_ssl_certificate E now config cert w) = Ok v ->
      v = JNull \/ v = JBool false \/ v = JBool true)
  /\ shell (snd (export_ssl_certificate E now config cert w)) = shell w
  /\ (fst (export_ssl_certificate E now config cert w) = Ok JNull ->
      disk (snd (export_ssl_certificate E now config cert w)) = disk w)
  /\ (forall e,
         fst (comparator E now config cert w) = Raise e ->
         fst (export_ssl_certificate E now config cert w) = Raise e
         /\ disk (snd (export_ssl_certificate E now config cert w)) = disk w).
Proof. exact (export_outcome now config cert w). Qed.




End Exporting.


Section Written.

Variable E : env.

Lemma writes_to_none q ws : (forall s, ~ In (q, s) ws) -> writes_to q ws = [].
Proof.
  induction ws as [|[p s] ws IH]; intros Hq; [reflexivity|]. cbn.
  destruct (decide (p = q)) as [->|].
  - exfalso. apply (Hq s). now left.
  - apply IH. intros s' Hin. apply (Hq s'). now right.
Qed.

Lemma puts_snoc l s o : puts (l ++ [s]) o = put s (puts l o).
Proof. unfold puts. now rewrite foldl_app. Qed.

Lemma puts_keeps_writable l o :
  match o with None | Some (Regular _ true _) => True | _ => False end ->
  match puts l o with None | Some (Regular _ true _) => True | _ => False end.
Proof.
  revert o. induction l as [|s l IH]; intros o Ho; [exact Ho|].
  change (puts (s :: l) o) with (puts l (put s o)). apply IH.
  destruct o as [[r [] data| | |]|]; cbn in *; auto.
Qed.

(** After writes to a path that can be opened, of which [data] is the
    last, the path holds [data]. *)
Lemma holds_last_write ws d q l data :
  writable d q = true ->
  writes_to q ws = l ++ [data] ->
  exists r, holds (apply_writes ws d) q = Some (Regular r true data).
Proof.
  intros Hw Hl. rewrite holds_apply_writes, Hl, puts_snoc.
  assert (Ho : match holds d q with
               | None | Some (Regular _ true _) => True | _ => False end).
  { unfold writable in Hw. destruct (holds d q) as [[r [] x| | |]|]; auto;
      discriminate. }
  pose proof (puts_keeps_writable l _ Ho) as Hp.
  destruct (puts l (holds d q)) as [[r [] x| | |]|]; cbn in *; try tauto; eauto.
Qed.





Lemma select_keys_items cert ks items :
  select_keys cert ks = Ok items ->
  map fst items = ks /\ forall k v, In (k, v) items -> getitem cert k = Ok v.
Proof.
  revert items. induction ks as [|k ks IH]; cbn; intros items.
  - intros [= <-]. split; [reflexivity|intros k v []].
  - destruct (getitem cert k) as [v|e] eqn:Hk; [|discriminate].
    destruct (select_keys cert ks) as [rest|e]; [|discriminate].
    intros [= <-]. destruct (IH rest Logic.eq_refl) as [Hkeys Hvals].
    split; [cbn; now rewrite Hkeys|].
    intros k' v' [[= <- <-]|Hin]; auto.
Qed.

(** After an export that returned [True], a metadata file that could be
    opened for writing holds the record of the certificate: its [domain],
    [valid_from], [valid_to] and [fingerprint], in this order, and nothing
    else of it. *)
Theorem exported_record_on_disk now config cert w w1 mpath :
  export_ssl_certificate E now config cert w = (Ok (JBool true), w1) ->
  getitem config "metadata" = Ok (JStr mpath) ->
  writable (disk w) mpath = true ->
  exists items r,
    map fst items = metadata_keys
    /\ (forall k v, In (k, v) items -> getitem cert k = Ok v)
    /\ holds (disk w1) mpath
       = Some (Regular r true (json_dumps E (JObj items))).
Proof.
  intros Hrun Hmp Hok.
  destruct (first_run_plan E _ _ _ _ _ Hrun) as [Hres ->].
  unfold export_plan, metadata_plan in *. rewrite Hmp, Hok in *.
  destruct (getitem cert "fingerprint"); [|discriminate].
  destruct (displays E _); cbn [negb] in *; [|discriminate].
  destruct (files_plan E (writable (disk w)) config cert file_names)
    as [[[]|e] ws]; try discriminate.
  destruct (select_keys cert metadata_keys) as [items|e] eqn:Hitems;
    [|discriminate].
  destruct (select_keys_items _ _ _ Hitems) as [Hkeys Hvals].
  exists items. cbn [snd].
  destruct (holds_last_write
              (ws ++ [(mpath, []); (mpath, json_dumps E (JObj items))])
              (disk w) mpath (writes_to mpath ws ++ [[]])
              (json_dumps E (JObj items)) Hok) as [r Hr].
  { rewrite writes_to_app. cbn.
    destruct (decide (mpath = mpath)); [|congruence].
    now rewrite <- app_assoc. }
  exists r. auto.
Qed.


End Written.


Section Hook.

Variable E : env.

(** The command given with [--on-export] is run only after an export
    that returned [True], and then once; no other command is ever run. *)
Theorem hook_only_after_export now config cert on_export w :
  shell (snd (export_and_notify E now config cert on_export w)) = shell w
  \/ exists command,
       on_export = Some command
       /\ command <> []
       /\ fst (export_ssl_certificate E now config cert w) = Ok (JBool true)
       /\ shell (snd (export_and_notify E now config cert on_export w))
          = shell w ++ [command].
Proof.
  unfold export_and_notify, bind.
  pose proof (export_shell E now config cert w) as Hshell.
  destruct (export_outcome E now config cert w) as (Hres & _).
  destruct (export_ssl_certificate E now config cert w) as [[v|e] w1];
    cbn in *; [|now left].
  destruct on_export as [[|c command]|]; [now left| |now left].
  destruct (Hres v Logic.eq_refl) as [-> | [-> | ->]]; cbn; [now left|now left|].
  right. exists (c :: command). repeat split; [discriminate|].
  unfold sp_run. cbn.
  destruct (shell_returncode E (c :: command) =? 0); cbn; now rewrite Hshell.
Qed.

Lemma export_and_notify_disk now config cert on_export w :
  disk (snd (export_and_notify E now config cert on_export w))
  = disk (snd (export_ssl_certificate E now config cert w)).
Proof.
  unfold export_and_notify, bind.
  destruct (export_ssl_certificate E now config cert w) as [[v|e] w1];
    [|reflexivity].
  destruct on_export as [[|c command]|]; try reflexivity.
  destruct (truthy v); [|reflexivity]. cbn. unfold sp_run. cbn.
  destruct (shell_returncode E (c :: command) =? 0); reflexivity.
Qed.

(** When the server gives no answer with status 200, a run of the main
    block changes no file and runs no command. *)
Theorem no_answer_changes_nothing now config_path on_export w :
  (forall url token domain res,
      requests_get E url token domain = Ok res -> status_code res <> 200) ->
  disk (snd (main E now config_path on_export w)) = disk w
  /\ shell (snd (main E now config_path on_export w)) = shell w.
Proof.
  intros Hno. unfold main, bind.
  change (print MsgTimestamp w) with (@Ok unit tt, said w [MsgTimestamp]).
  cbn iota.
  destruct (load_config_frame E config_path (said w [MsgTimestamp])) as [Hd Hs].
  destruct (load_config E config_path (said w [MsgTimestamp])) as [[config|e] w1];
    cbn in Hd, Hs; [|auto].
  destruct (truthy config); [|auto].
  destruct (download_outcome E config w1) as (Hd2 & Hs2 & _).
  assert (Hnone : forall data, fst (download_ssl_data E config w1) = Ok data ->
                               data = JNull).
  { unfold download_ssl_data. monad.
    destruct (getitem config "token"); [|discriminate].
    destruct (getitem config "remote_url"); [|discriminate].
    destruct (getitem config "domain"); [|discriminate].
    destruct (requests_get E _ _ _) as [res|e] eqn:Hreq; [|discriminate].
    apply Hno in Hreq. apply Z.eqb_neq in Hreq. rewrite Hreq. cbn.
    destruct (displays E (JStr (reason res))); cbn; [|discriminate].
    destruct (content res) as [|c body]; cbn;
      [intros data [= <-]; reflexivity|].
    destruct (displays E _); cbn; [|discriminate].
    intros data [= <-]; reflexivity. }
  destruct (download_ssl_data E config w1) as [[cert|e] w2];
    cbn [fst snd] in *;
    [rewrite (Hnone cert Logic.eq_refl); cbn [truthy]|];
    unfold ret; cbn [snd];
    (split; [rewrite Hd2, Hd | rewrite Hs2, Hs]; reflexivity).
Qed.

End Hook.

Section Behind.

Variable E : env.

Lemma file_plan_writes_ok ok config cert name p s :
  In (p, s) (snd (file_plan E ok config cert name)) -> ok p = true.
Proof.
  unfold file_plan.
  destruct (get config name) as [target|e]; [|intros []].
  destruct (truthy target); [|intros []].
  destruct target as [|b|n|path| |]; cbn [as_int];
    try (repeat split_match; intros []; fail).
  destruct (ok path) eqn:Hok; [|intros []].
  destruct (getitem cert name) as [[| | |body| |]|e]; cbn;
    try (intuition congruence).
  destruct (encodes E body); cbn; intuition congruence.
Qed.

Lemma files_plan_writes_ok ok config cert names p s :
  In (p, s) (snd (files_plan E ok config cert names)) -> ok p = true.
Proof.
  induction names as [|n names IH]; [intros []|].
  cbn [files_plan].
  pose proof (file_plan_writes_ok ok config cert n p s) as Hn.
  destruct (file_plan E ok config cert n) as [[[]|e] ws]; cbn [snd] in *;
    rewrite ?in_app_iff; intuition.
Qed.

Lemma export_plan_writes_ok ok config cert p s :
  In (p, s) (snd (export_plan E ok config cert)) -> ok p = true.
Proof.
  unfold export_plan.
  destruct (getitem cert "fingerprint"); [|intros []].
  destruct (displays E _); cbn [negb]; [|intros []].
  pose proof (files_plan_writes_ok ok config cert file_names p s) as Hfiles.
  destruct (files_plan E ok config cert file_names) as [[[]|e] ws]; cbn in *;
    auto.
  assert (Hmeta : In (p, s) (snd (metadata_plan E ok config cert)) -> ok p = true).
  { unfold metadata_plan.
    destruct (select_keys cert metadata_keys); [|intros []].
    destruct (getitem config "metadata") as [[| | |path| |]|e]; try (intros []).
    destruct (ok path) eqn:Hok; [|intros []]. cbn. intuition congruence. }
  destruct (metadata_plan E ok config cert) as [[[]|e] ws']; cbn in *;
    rewrite in_app_iff; intuition.
Qed.

(** A path that cannot be opened for writing is as it was after the
    export, whatever the export did. *)
Lemma unwritable_path_kept now config cert w q :
  writable (disk w) q = false ->
  holds (disk (snd (export_ssl_certificate E now config cert w))) q
  = holds (disk w) q.
Proof.
  intros Hq. unfold export_ssl_certificate, bind.
  destruct (comparator_frame E now config cert w) as [out Hout].
  destruct (comparator E now config cert w) as [[[v|]|e] w0]; cbn in Hout;
    subst w0; try reflexivity.
  edestruct (export_new_plan E (writable (disk w)) config cert) as [out' Hplan];
    [|rewrite Hplan]; [reflexivity|].
  cbn [snd disk]. rewrite holds_apply_writes, writes_to_none; [reflexivity|].
  intros s Hs. apply export_plan_writes_ok in Hs. congruence.
Qed.

(** What the comparator decides depends on the machine through what the
    metadata path holds, and on nothing else of it. *)
Lemma comparator_reads_metadata_only now config cert w w' :
  (forall mpath, getitem config "metadata" = Ok (JStr mpath) ->
                 holds (disk w') mpath = holds (disk w) mpath) ->
  fst (comparator E now config cert w') = fst (comparator E now config cert w).
Proof.
  intros Hsame. unfold comparator. monad.
  destruct (getitem cert "valid_from") as [vf|e]; [|reflexivity].
  destruct (gt_int vf now) as [[]|e]; [| |reflexivity].
  - destruct (timestamp2datetime E vf); [|reflexivity].
    destruct (getitem cert "fingerprint") as [fp|]; [|reflexivity].
    destruct (displays E fp); reflexivity.
  - assert (Hread : fst (read_metadata E config w') = fst (read_metadata E config w)).
    { unfold read_metadata, read_file. monad.
      destruct (getitem config "metadata") as [[| | |mpath| |]|e] eqn:Hmp;
        try reflexivity;
        try (cbn; destruct (read_descriptor E _); reflexivity).
      rewrite (Hsame mpath Logic.eq_refl).
      destruct (holds (disk w) mpath) as [[[] wr data| | |]|]; reflexivity. }
    rewrite (read_metadata_eq E config w' _ Logic.eq_refl).
    rewrite (read_metadata_eq E config w _ Logic.eq_refl). rewrite Hread.
    destruct (fst (read_metadata E config w)) as [metadata|e].
    + unfold compare_metadata. monad.
      repeat (split_match; try reflexivity).
    + unfold metadata_unavailable. monad.
      destruct e; cbn; try reflexivity.
      destruct (getitem config "metadata") as [[| | |mpath| |]|e] eqn:Hmp;
        try reflexivity;
        try (cbn; destruct (read_descriptor E _); reflexivity).
      unfold read_file. cbn [disk]. rewrite (Hsame mpath Logic.eq_refl).
      destruct (holds (disk w) mpath) as [[[] wr data| | |]|]; reflexivity.
Qed.

(** When the metadata file cannot be opened for writing, the ledger stays
    behind: after a run that went on to export, a second run at the same
    time falls through to the export again. *)
Theorem unwritable_metadata_repeats now config cert w w0 mpath :
  comparator E now config cert w = (Ok None, w0) ->
  getitem config "metadata" = Ok (JStr mpath) ->
  writable (disk w) mpath = false ->
  holds (disk (snd (export_ssl_certificate E now config cert w))) mpath
  = holds (disk w) mpath
  /\ fst (comparator E now config cert
            (snd (export_ssl_certificate E now config cert w)))
     = Ok None.
Proof.
  intros Hc Hmp Hw.
  pose proof (unwritable_path_kept now config cert w mpath Hw) as Hkept.
  split; [exact Hkept|].
  rewrite (comparator_reads_metadata_only now config cert w).
  - now rewrite Hc.
  - intros mpath' Hmp'. rewrite Hmp in Hmp'. injection Hmp' as <-. exact Hkept.
Qed.

End Behind.

(** *** The further properties at the sample data *)

Import Samples.

Import MoreSamples.

Lemma load_config_accepts_witness :
  load_config answering "/ssl/config.json" (with_config (render config))
  = (Ok config, with_config (render config)).
Proof.
  apply (load_config_accepts answering "/ssl/config.json"
           (with_config (render config)) (render config)
           [(str "remote_url", JStr "https://ca.example/api");
            (str "token", JStr "secret");
            (str "domain", JStr "example.com");
            (str "crt", JStr "/ssl/site.crt");
            (str "key", JStr "/ssl/site.key");
            (str "cab", JStr "/ssl/site.cab");
            (str "metadata", JStr "/ssl/metadata.json")]).
  - vm_compute. reflexivity.
  - vm_compute. reflexivity.
  - intros param [<-|[<-|[<-|[<-|[<-|[<-|[<-|[]]]]]]]]; vm_compute; discriminate.
Defined.

(** A whole run: the configuration is read, the certificate BB received
    and exported, and the command given with [--on-export] run. *)
Example whole_run :
  let run := main answering 100 "/ssl/config.json" (Some (str "restart"))
               (with_config (render config)) in
  fst run = Ok tt
  /\ shell (snd run) = [str "restart"]
  /\ disk (snd run) !! str "/ssl/metadata.json"
     = Some (Regular true true (render (record "BB" 2000))).
Proof. vm_compute. auto. Qed.

Lemma download_yields_certificate_witness :
  fst (download_ssl_data answering config fresh) = Ok (cert "BB" 0 2000)
  /\ (cert "BB" 0 2000 = JNull \/ contains "crt" (cert "BB" 0 2000) = Ok true)
  /\ disk (snd (download_ssl_data answering config fresh)) = disk fresh
  /\ shell (snd (download_ssl_data answering config fresh)) = shell fresh.
Proof.
  split; [vm_compute; reflexivity|].
  destruct (download_yields_certificate answering config fresh)
    as (Hdisk & Hshell & Hdata).
  split; [|split; [exact Hdisk|exact Hshell]].
  apply Hdata. vm_compute. reflexivity.
Defined.

Lemma later_expiry_replaces_witness :
  comparator offline 100 config (cert "BB" 0 2000)
    (with_metadata (render (record "AA" 1000)))
  = (Ok None, with_metadata (render (record "AA" 1000))).
Proof.
  apply (later_expiry_replaces offline 100 config (cert "BB" 0 2000)
           (with_metadata (render (record "AA" 1000))) (record "AA" 1000)
           (JInt 0) (JStr "AA") (JStr "BB") (JInt 2000) (JInt 1000));
    vm_compute; reflexivity.
Defined.

Lemma none_means_nothing_written_witness :
  disk (snd (export_ssl_certificate offline 100 config (cert "AA" 0 5000)
               (with_metadata (render (record "AA" 1000)))))
  = disk (with_metadata (render (record "AA" 1000))).
Proof.
  apply (none_means_nothing_written offline 100 config (cert "AA" 0 5000)
           (with_metadata (render (record "AA" 1000)))).
  vm_compute. reflexivity.
Defined.



Lemma exported_record_on_disk_witness :
  exists items r,
    map fst items = metadata_keys
    /\ (forall k v, In (k, v) items -> getitem (cert "BB" 0 2000) k = Ok v)
    /\ holds (disk (snd (export_ssl_certificate offline 100 config
                           (cert "BB" 0 2000) fresh))) "/ssl/metadata.json"
       = Some (Regular r true (json_dumps offline (JObj items))).
Proof.
  apply (exported_record_on_disk offline 100 config (cert "BB" 0 2000) fresh
           (snd (export_ssl_certificate offline 100 config (cert "BB" 0 2000) fresh))
           "/ssl/metadata.json");
    vm_compute; reflexivity.
Defined.


Lemma hook_only_after_export_witness :
  shell (snd (export_and_notify offline 100 config (cert "BB" 0 2000)
                (Some (str "restart")) fresh)) = shell fresh
  \/ exists command,
       Some (str "restart") = Some command
       /\ command <> []
       /\ fst (export_ssl_certificate offline 100 config (cert "BB" 0 2000) fresh)
          = Ok (JBool true)
       /\ shell (snd (export_and_notify offline 100 config (cert "BB" 0 2000)
                        (Some (str "restart")) fresh))
          = shell fresh ++ [command].
Proof.
  exact (hook_only_after_export offline 100 config (cert "BB" 0 2000)
           (Some (str "restart")) fresh).
Defined.

Lemma no_answer_changes_nothing_witness :
  let run := main declining 100 "/ssl/config.json" (Some (str "restart"))
               (with_config (render config)) in
  stdout run.2
  = [MsgTimestamp; MsgRequestFailed 503 (str "Service Unavailable");
     MsgResponseBody (str "try again later")]
  /\ disk run.2 = disk (with_config (render config))
  /\ shell run.2 = shell (with_config (render config)).
Proof.
  split; [vm_compute; reflexivity|].
  apply (no_answer_changes_nothing declining 100 "/ssl/config.json"
           (Some (str "restart")) (with_config (render config))).
  intros url token domain res [= <-]. vm_compute. discriminate.
Defined.

Lemma unwritable_metadata_repeats_witness :
  fst (comparator offline 100 config (cert "BB" 0 2000)
         (snd (export_ssl_certificate offline 100 config (cert "BB" 0 2000)
                 metadata_read_only)))
  = Ok None.
Proof.
  apply (unwritable_metadata_repeats offline 100 config (cert "BB" 0 2000)
           metadata_read_only metadata_read_only "/ssl/metadata.json");
    vm_compute; reflexivity.
Defined.

End DownloaderExtras.

(** ** Further properties of the installer *)

Module RdsExtras.
Import Py RdsManager RdsProofs.

Ltac monad := unfold bind, lift, ret, raise, try in *; cbn [fst snd] in *.

Lemma ends_with_app p a : ends_with p (a ++ p) = true.
Proof. unfold ends_with. rewrite rev_app_distr. apply starts_with_refl_app. Qed.

(** A store name is put between quotes at most once: formatting a
    formatted name changes nothing. *)
Theorem format_store_name_idempotent name :
  format_store_name (format_store_name name) = format_store_name name.
Proof.
  unfold format_store_name.
  destruct (contains_str " " name && negb (starts_with quote name)) eqn:Hc.
  - rewrite (starts_with_refl_app quote (name ++ quote)). cbn [negb].
    now rewrite andb_false_r.
  - now rewrite Hc.
Qed.

Lemma match_here_group lit sep cls s g :
  match_here lit sep cls s = Some g ->
  g <> [] /\ forallb cls g = true /\ starts_with lit s = true.
Proof.
  unfold match_here. destruct (starts_with lit s); [|discriminate].
  assert (Hall : forall r, forallb cls (take_while cls r) = true).
  { induction r as [|c r IH]; [reflexivity|]. cbn.
    destruct (cls c) eqn:Hc; [|reflexivity]. cbn. now rewrite Hc, IH. }
  destruct sep.
  - destruct (drop (length lit) s) as [|c rest]; [discriminate|].
    destruct (is_space c); [|discriminate].
    pose proof (Hall rest) as Hr.
    destruct (take_while cls rest); [discriminate|]. intros [= <-].
    repeat split; [discriminate|exact Hr].
  - pose proof (Hall (drop (length lit) s)) as Hr.
    destruct (take_while cls (drop (length lit) s)); [discriminate|].
    intros [= <-]. repeat split; [discriminate|exact Hr].
Qed.

Lemma re_search_group lit sep cls s g :
  re_search lit sep cls s = Some g ->
  g <> [] /\ forallb cls g = true /\ contains_str lit s = true.
Proof.
  induction s as [|x s IH]; cbn [re_search].
  - destruct (match_here lit sep cls []) eqn:Hm; [|discriminate].
    intros [= <-]. destruct (match_here_group _ _ _ _ _ Hm) as (? & ? & Hs).
    repeat split; auto. now apply starts_with_contains.
  - destruct (match_here lit sep cls (x :: s)) eqn:Hm.
    + intros [= <-]. destruct (match_here_group _ _ _ _ _ Hm) as (? & ? & Hs).
      repeat split; auto. now apply starts_with_contains.
    + intros H. destruct (IH H) as (? & ? & Hs). repeat split; auto.
      now apply contains_str_tail.
Qed.

(** The groups of the searches of the cleaning loop: the certificate hash found is not
    empty, holds no white space and stands in the entry; the date found
    is not empty, holds no line break, stands in the entry, and the entry
    then holds [NotAfter:]. *)
Theorem searched_groups cert :
  (forall hash,
      search_cert_hash cert = Some hash ->
      hash <> [] /\ forallb not_space hash = true
      /\ contains_str hash cert = true)
  /\ (forall date,
         search_not_after cert = Some date ->
         date <> [] /\ forallb not_newline date = true
         /\ contains_str date cert = true
         /\ contains_str "NotAfter:" cert = true).
Proof.
  split.
  - intros hash Hh. destruct (re_search_group _ _ _ _ _ Hh) as (? & ? & _).
    repeat split; auto. exact (re_search_contains _ _ _ _ _ Hh).
  - intros date Hd. destruct (re_search_group _ _ _ _ _ Hd) as (? & ? & ?).
    repeat split; auto. exact (re_search_contains _ _ _ _ _ Hd).
Qed.

Section Installer.

Context {H : Type}.
Variable machine_of : host H.
Variable L : library.

Lemma pfx_path_outcome a v p v' :
  pfx_path machine_of L a v = (Ok p, v') ->
  ends_with ".pfx" p = true /\ v' = v.
Proof.
  unfold pfx_path. monad.
  destruct (path_pfx a) as [[|c given]|].
  - intros [= <- <-]. split; [apply ends_with_app|reflexivity].
  - destruct (ends_with ".pfx" (c :: given)) eqn:He; cbn; [|discriminate].
    destruct (isdir machine_of _ _); [|discriminate].
    intros [= <- <-]. auto.
  - intros [= <- <-]. split; [apply ends_with_app|reflexivity].
Qed.

(** The path handed to the converter and to the importer always ends in
    [.pfx], whether it was given or made from the path of the
    certificate; finding it leaves the machine as it is. *)
Theorem pfx_path_ends_in_pfx a v p v' :
  pfx_path machine_of L a v = (Ok p, v') ->
  ends_with ".pfx" p = true /\ v' = v.
Proof. exact (pfx_path_outcome a v p v'). Qed.

Lemma require_files_found paths v :
  (forall path, In path paths -> isfile machine_of path (machine v) = true) ->
  require_files machine_of paths v = (Ok tt, v).
Proof.
  induction paths as [|p paths IH]; intros Hall; [reflexivity|].
  cbn [require_files]. rewrite (Hall p (or_introl Logic.eq_refl)).
  apply IH. intros path Hin. apply Hall. now right.
Qed.

(** With the start-up checks passed, a given [--pfx] path that does not
    end in [.pfx], or whose directory does not exist, makes the script
    leave through [SystemExit] with status 1 before any command is run. *)
Theorem bad_pfx_path_aborts a v n given :
  is_user_an_admin machine_of (machine v) = Ok n ->
  n <> 0 ->
  (forall path, In path [path_crt a; path_key a; path_metadata a] ->
                isfile machine_of path (machine v) = true) ->
  path_pfx a = Some given ->
  given <> [] ->
  (ends_with ".pfx" given = false ->
   exits_with (main machine_of L a v) 1
     (Some ("Error: The path for PKCS #12 certificate file must end with "
            ++ quote ++ ".pfx" ++ quote ++ " file extension.")) v)
  /\ (ends_with ".pfx" given = true ->
      isdir machine_of (dirname L given) (machine v) = false ->
      exits_with (main machine_of L a v) 1
        (Some ("Error: The path directory for PKCS #12 certificate file not found! Path: `"
               ++ dirname L given ++ "`")) v).
Proof.
  intros Hadmin Hn Hfiles Hgiven Hne.
  unfold main, has_admin_privileges, pfx_path, bind, raise.
  rewrite Hadmin. cbn [truthy]. apply Z.eqb_neq in Hn. rewrite Hn. cbn [negb].
  rewrite (require_files_found _ v Hfiles), Hgiven.
  destruct given as [|c given]; [congruence|].
  split.
  - intros ->. cbn [negb]. repeat split.
  - intros -> Hdir. cbn [negb]. cbn beta. rewrite Hdir. repeat split.
Qed.


(** *** The order of the commands *)

Lemma convert_certificate_issued o c k p w :
  issued (snd (convert_certificate machine_of o c k p w))
  = issued w ++ [OpensslPkcs12 o c k p].
Proof.
  unfold convert_certificate. monad.
  pose proof (sp_run_issued machine_of (OpensslPkcs12 o c k p) w) as Hrun.
  destruct (sp_run machine_of (OpensslPkcs12 o c k p) w) as [[out|e] w'];
    cbn in *.
  - destruct (isfile machine_of p (machine w')); exact Hrun.
  - destruct e; exact Hrun.
Qed.

Lemma import_certificate_issued p s w :
  issued (snd (import_certificate machine_of p s w))
  = issued w ++ [CertutilImportpfx s p].
Proof.
  unfold import_certificate. monad.
  pose proof (sp_run_issued machine_of (CertutilImportpfx s p) w) as Hrun.
  destruct (sp_run machine_of (CertutilImportpfx s p) w) as [[out|e] w'];
    cbn in *.
  - repeat (destruct (contains_str _ out)); exact Hrun.
  - destruct e; exact Hrun.
Qed.

Lemma set_rds_certificate_issued fp w :
  issued (snd (set_rds_certificate machine_of fp w))
  = issued w ++ [WmicSetCertificate fp].
Proof.
  unfold set_rds_certificate. monad.
  pose proof (sp_run_issued machine_of (WmicSetCertificate fp) w) as Hrun.
  destruct (sp_run machine_of (WmicSetCertificate fp) w) as [[out|e] w'];
    cbn in *.
  - destruct (negb _); exact Hrun.
  - destruct e; exact Hrun.
Qed.

Lemma load_metadata_world path w : snd (load_metadata machine_of L path w) = w.
Proof.
  unfold load_metadata. destruct (read machine_of path (machine w)); [|reflexivity].
  destruct (json_loads L a) as [v|e]; [reflexivity|].
  destruct (is_Exception e); reflexivity.
Qed.

Lemma clean_entries_issued store fingerprint certs w :
  exists deletions,
    issued (snd (clean_entries machine_of L store fingerprint certs w))
    = issued w ++ deletions
    /\ Forall (fun c => exists hash, c = CertutilDelstore store hash) deletions.
Proof.
  revert w. induction certs as [|cert certs IH]; intros w.
  - exists []. cbn. now rewrite app_nil_r.
  - cbn [clean_entries]. unfold bind.
    destruct (clean_entry_issued machine_of L store fingerprint cert w)
      as [Hsame|(c & Hc & Hexp)].
    + destruct (clean_entry machine_of L store fingerprint cert w)
        as [[[]|e] w'] eqn:Hentry; cbn in Hsame; subst w'.
      * apply IH.
      * exists []. cbn. now rewrite app_nil_r.
    + assert (Hdel : exists hash, c = CertutilDelstore store hash).
      { destruct Hexp as (text & t & hash & Hrest). exists hash. tauto. }
      destruct (clean_entry machine_of L store fingerprint cert w)
        as [[[]|e] w'] eqn:Hentry; cbn in Hc.
      * destruct (IH w') as (ds & Hds & Hall). exists (c :: ds). split.
        -- rewrite Hds, Hc, <- app_assoc. reflexivity.
        -- now constructor.
      * exists [c]. split; [exact Hc|]. constructor; [exact Hdel|constructor].
Qed.

Lemma clean_store_issued store fingerprint w :
  exists deletions,
    issued (snd (clean_store machine_of L store fingerprint w))
    = issued w ++ CertutilStore store :: deletions
    /\ Forall (fun c => exists hash, c = CertutilDelstore store hash) deletions.
Proof.
  unfold clean_store, print_block_indent. monad.
  pose proof (sp_run_issued machine_of (CertutilStore store) w) as Hrun.
  destruct (sp_run machine_of (CertutilStore store) w) as [[out|e] w'];
    cbn [fst snd] in *.
  - destruct (negb _); cbn [snd]; [exists []; now rewrite Hrun|].
    destruct (tail (split_certificates L out)) as [|cert certs];
      [exists []; cbn [snd]; now rewrite Hrun|].
    destruct (clean_entries_issued store fingerprint (cert :: certs) w')
      as (ds & Hds & Hall).
    exists ds. split; [|exact Hall].
    rewrite Hds, Hrun, <- app_assoc. reflexivity.
  - exists []. destruct e; cbn [snd]; now rewrite Hrun.
Qed.

(** The commands a run of the main block issues are, in this order: the
    conversion, the import, the binding of the fingerprint, the listing of
    the store, then deletions from that store.  The run may stop after any
    of them, and issues none before the one that precedes it. *)
Theorem stages_in_order a v :
  exists cmds,
    issued (snd (main machine_of L a v)) = issued v ++ cmds
    /\ (cmds = []
        \/ exists pfx fingerprint deletions,
             ends_with ".pfx" pfx = true
             /\ Forall (fun c => exists hash,
                            c = CertutilDelstore
                                  (format_store_name (store_name a)) hash)
                       deletions
             /\ (cmds `prefix_of`
                   [OpensslPkcs12 (path_openssl a) (path_crt a) (path_key a) pfx;
                    CertutilImportpfx (format_store_name (store_name a)) pfx;
                    WmicSetCertificate fingerprint;
                    CertutilStore (format_store_name (store_name a))]
                \/ cmds =
                   [OpensslPkcs12 (path_openssl a) (path_crt a) (path_key a) pfx;
                    CertutilImportpfx (format_store_name (store_name a)) pfx;
                    WmicSetCertificate fingerprint;
                    CertutilStore (format_store_name (store_name a))]
                   ++ deletions)).
Proof.
  set (store := format_store_name (store_name a)).
  assert (Hnone : forall (r : res unit), exists cmds,
             issued (snd (r, v)) = issued v ++ cmds
             /\ (cmds = []
                 \/ exists pfx fingerprint deletions,
                      ends_with ".pfx" pfx = true
                      /\ Forall (fun c => exists hash,
                                     c = CertutilDelstore store hash) deletions
                      /\ (cmds `prefix_of`
                            [OpensslPkcs12 (path_openssl a) (path_crt a)
                               (path_key a) pfx;
                             CertutilImportpfx store pfx;
                             WmicSetCertificate fingerprint;
                             CertutilStore store]
                          \/ cmds =
                             [OpensslPkcs12 (path_openssl a) (path_crt a)
                                (path_key a) pfx;
                              CertutilImportpfx store pfx;
                              WmicSetCertificate fingerprint;
                              CertutilStore store] ++ deletions))).
  { intros r. exists []. cbn. rewrite app_nil_r. auto. }
  unfold main, has_admin_privileges, bind, raise.
  destruct (is_user_an_admin machine_of (machine v)) as [n|e]; cbn [truthy];
    [|apply Hnone].
  destruct (negb (negb (n =? 0))); [apply Hnone|].
  assert (Hreq : snd (require_files machine_of
                        [path_crt a; path_key a; path_metadata a] v) = v).
  { generalize [path_crt a; path_key a; path_metadata a]. intros paths.
    induction paths as [|p paths IH]; [reflexivity|]. cbn [require_files].
    destruct (isfile machine_of p (machine v)); [exact IH|reflexivity]. }
  destruct (require_files machine_of _ v) as [[[]|e] v0]; cbn in Hreq; subst v0;
    [|apply Hnone].
  pose proof (pfx_path_outcome a v) as Hpfx.
  assert (Hpfx_world : snd (pfx_path machine_of L a v) = v).
  { unfold pfx_path. monad. destruct (path_pfx a) as [[|c given]|];
      try reflexivity.
    destruct (negb _); [reflexivity|].
    destruct (isdir machine_of _ _); reflexivity. }
  destruct (pfx_path machine_of L a v) as [[pfx|e] v0]; cbn in Hpfx_world;
    subst v0; [|apply Hnone].
  destruct (Hpfx pfx v Logic.eq_refl) as [Hends _].
  unfold install, bind, lift, ret. fold store.
  set (c1 := OpensslPkcs12 (path_openssl a) (path_crt a) (path_key a) pfx).
  set (c2 := CertutilImportpfx store pfx).
  assert (Hshape : forall cmds fingerprint deletions,
             Forall (fun c => exists hash, c = CertutilDelstore store hash)
                    deletions ->
             cmds `prefix_of` [c1; c2; WmicSetCertificate fingerprint;
                               CertutilStore store]
             \/ cmds = [c1; c2; WmicSetCertificate fingerprint;
                        CertutilStore store] ++ deletions ->
             cmds = []
             \/ exists pfx0 fingerprint0 deletions0,
                  ends_with ".pfx" pfx0 = true
                  /\ Forall (fun c => exists hash,
                                 c = CertutilDelstore store hash) deletions0
                  /\ (cmds `prefix_of`
                        [OpensslPkcs12 (path_openssl a) (path_crt a)
                           (path_key a) pfx0;
                         CertutilImportpfx store pfx0;
                         WmicSetCertificate fingerprint0;
                         CertutilStore store]
                      \/ cmds =
                         [OpensslPkcs12 (path_openssl a) (path_crt a)
                            (path_key a) pfx0;
                          CertutilImportpfx store pfx0;
                          WmicSetCertificate fingerprint0;
                          CertutilStore store] ++ deletions0)).
  { intros cmds fingerprint deletions Hall Hcmds. right.
    exists pfx, fingerprint, deletions. auto. }
  pose proof (convert_certificate_issued (path_openssl a) (path_crt a)
                (path_key a) pfx v) as H1.
  fold c1 in H1.
  destruct (convert_certificate machine_of _ _ _ pfx v) as [[converted|e] v1];
    cbn in H1.
  2:{ exists [c1]. split; [exact H1|].
      apply (Hshape _ JNull []); [constructor|]. left.
      exists [c2; WmicSetCertificate JNull; CertutilStore store]. reflexivity. }
  destruct (truthy converted).
  2:{ exists [c1]. split; [exact H1|].
      apply (Hshape _ JNull []); [constructor|]. left.
      exists [c2; WmicSetCertificate JNull; CertutilStore store]. reflexivity. }
  pose proof (import_certificate_issued pfx store v1) as H2. fold c2 in H2.
  destruct (import_certificate machine_of pfx store v1) as [[imported|e] v2];
    cbn in H2; rewrite H1, <- app_assoc in H2; cbn [app] in H2.
  2:{ exists [c1; c2]. split; [exact H2|].
      apply (Hshape _ JNull []); [constructor|]. left.
      exists [WmicSetCertificate JNull; CertutilStore store]. reflexivity. }
  destruct (truthy imported).
  2:{ exists [c1; c2]. split; [exact H2|].
      apply (Hshape _ JNull []); [constructor|]. left.
      exists [WmicSetCertificate JNull; CertutilStore store]. reflexivity. }
  pose proof (load_metadata_world (path_metadata a) v2) as H3.
  destruct (load_metadata machine_of L (path_metadata a) v2)
    as [[metadata|e] v3]; cbn in H3; subst v3.
  2:{ exists [c1; c2]. split; [exact H2|].
      apply (Hshape _ JNull []); [constructor|]. left.
      exists [WmicSetCertificate JNull; CertutilStore store]. reflexivity. }
  destruct (truthy metadata).
  2:{ exists [c1; c2]. split; [exact H2|].
      apply (Hshape _ JNull []); [constructor|]. left.
      exists [WmicSetCertificate JNull; CertutilStore store]. reflexivity. }
  destruct (getitem metadata "fingerprint") as [fp|e].
  2:{ exists [c1; c2]. split; [exact H2|].
      apply (Hshape _ JNull []); [constructor|]. left.
      exists [WmicSetCertificate JNull; CertutilStore store]. reflexivity. }
  pose proof (set_rds_certificate_issued fp v2) as H4.
  destruct (set_rds_certificate machine_of fp v2) as [[bound|e] v4];
    cbn in H4; rewrite H2, <- app_assoc in H4; cbn [app] in H4.
  2:{ exists [c1; c2; WmicSetCertificate fp]. split; [exact H4|].
      apply (Hshape _ fp []); [constructor|]. left.
      exists [CertutilStore store]. reflexivity. }
  destruct (truthy bound).
  2:{ exists [c1; c2; WmicSetCertificate fp]. split; [exact H4|].
      apply (Hshape _ fp []); [constructor|]. left.
      exists [CertutilStore store]. reflexivity. }
  destruct (clean_store_issued store fp v4) as (ds & Hds & Hall).
  exists ([c1; c2; WmicSetCertificate fp; CertutilStore store] ++ ds).
  split.
  - rewrite Hds, H4, <- app_assoc. reflexivity.
  - apply (Hshape _ fp ds Hall). now right.
Qed.

(** *** When the cleaning stops *)

Lemma sp_run_outcome c w p h :
  run machine_of c (machine w) = (p, h) ->
  sp_run machine_of c w
  = (if returncode p =? 0 then Ok (output p)
     else Raise (CalledProcessError (returncode p)),
     World h (issued w ++ [c])).
Proof.
  intros Hrun. unfold sp_run. rewrite Hrun.
  destruct (returncode p =? 0); reflexivity.
Qed.

(** A deletion that fails ends the cleaning at once: when the command
    for an expired entry returns a status other than 0, or prints an
    output without the hash or without the words of success, the run
    raises [TypeError] (from the call of [print_block] with [indent]),
    and the entries after it are not examined. *)
Theorem failed_deletion_stops_cleaning store fingerprint cert certs w c cn p h :
  expired_entry machine_of L store fingerprint cert w c ->
  search_subject_cn cert = Some cn ->
  run machine_of c (machine w) = (p, h) ->
  (returncode p <> 0
   \/ (forall hash, c = CertutilDelstore store hash ->
                    contains_str hash (output p) = false)
   \/ contains_str " completed successfully" (output p) = false) ->
  clean_entries machine_of L store fingerprint (cert :: certs) w
  = (Raise TypeError, World h (issued w ++ [c])).
Proof.
  intros (text & t & hash & Hactive & Hhas & Htext & Ht & Hlt & Hhash & ->)
    Hcn Hrun Hfail.
  cbn [clean_entries]. unfold clean_entry, delete_certificate, print_block_indent.
  monad. rewrite Hactive, Hhas, Htext, Ht. cbn [orb negb].
  apply Z.ltb_lt in Hlt. rewrite Hlt, Hcn, Hhash.
  rewrite (sp_run_outcome _ _ _ _ Hrun).
  destruct (returncode p =? 0) eqn:Hcode; [|reflexivity].
  destruct Hfail as [Hne|[Hno|Hno]].
  - apply Z.eqb_eq in Hcode. congruence.
  - rewrite (Hno hash Logic.eq_refl). reflexivity.
  - rewrite Hno, orb_true_r. reflexivity.
Qed.

(** A deletion that succeeds lets the cleaning go on: when the command
    for an expired entry returns status 0 and prints the hash and the
    words of success, the run continues with the entries after it. *)
Theorem successful_deletion_continues store fingerprint cert certs w c cn p h :
  expired_entry machine_of L store fingerprint cert w c ->
  search_subject_cn cert = Some cn ->
  run machine_of c (machine w) = (p, h) ->
  returncode p = 0 ->
  (forall hash, c = CertutilDelstore store hash ->
                contains_str hash (output p) = true) ->
  contains_str " completed successfully" (output p) = true ->
  clean_entries machine_of L store fingerprint (cert :: certs) w
  = clean_entries machine_of L store fingerprint certs
      (World h (issued w ++ [c])).
Proof.
  intros (text & t & hash & Hactive & Hhas & Htext & Ht & Hlt & Hhash & ->)
    Hcn Hrun Hcode Hout Hdone.
  cbn [clean_entries]. unfold clean_entry, delete_certificate. monad.
  rewrite Hactive, Hhas, Htext, Ht. cbn [orb negb].
  apply Z.ltb_lt in Hlt. rewrite Hlt, Hcn, Hhash.
  rewrite (sp_run_outcome _ _ _ _ Hrun), Hcode. cbn [Z.eqb].
  rewrite (Hout hash Logic.eq_refl), Hdone. reflexivity.
Qed.

(** A listing of the store that fails deletes nothing: when the listing
    command returns a status other than 0, or prints an output without
    the words of success, the cleaning raises [TypeError] after that one
    command; when the listing holds no certificate block it ends there. *)
Theorem failed_listing_deletes_nothing store fingerprint w p h :
  run machine_of (CertutilStore store) (machine w) = (p, h) ->
  (returncode p <> 0
   \/ contains_str "CertUtil: -store command completed successfully." (output p)
      = false ->
   clean_store machine_of L store fingerprint w
   = (Raise TypeError, World h (issued w ++ [CertutilStore store])))
  /\ (returncode p = 0 ->
      contains_str "CertUtil: -store command completed successfully." (output p)
      = true ->
      tail (split_certificates L (output p)) = [] ->
      clean_store machine_of L store fingerprint w
      = (Ok tt, World h (issued w ++ [CertutilStore store]))).
Proof.
  intros Hrun. unfold clean_store, print_block_indent. monad.
  rewrite (sp_run_outcome _ _ _ _ Hrun). split.
  - intros [Hne|Hno].
    + apply Z.eqb_neq in Hne. rewrite Hne. reflexivity.
    + destruct (returncode p =? 0); [|reflexivity]. now rewrite Hno.
  - intros -> Hyes Hnil. cbn. now rewrite Hyes, Hnil.
Qed.

(** With an empty active fingerprint every entry counts as active and
    nothing is deleted; with an active fingerprint that is not a string,
    the first entry raises [TypeError] before any command. *)
Theorem degenerate_fingerprints store certs w :
  clean_entries machine_of L store (JStr []) certs w = (Ok tt, w)
  /\ (forall fingerprint cert,
         (forall fp, fingerprint <> JStr fp) ->
         clean_entries machine_of L store fingerprint (cert :: certs) w
         = (Raise TypeError, w)).
Proof.
  split.
  - induction certs as [|cert certs IH]; [reflexivity|].
    cbn [clean_entries]. unfold clean_entry. monad. cbn [in_cert].
    assert (Hempty : contains_str [] cert = true) by (destruct cert; reflexivity).
    rewrite Hempty. exact IH.
  - intros fingerprint cert Hfp. cbn [clean_entries]. unfold clean_entry. monad.
    destruct fingerprint; try reflexivity. now destruct (Hfp s).
Qed.

End Installer.


(** *** The further properties at the sample data *)

Import Samples MoreSamples.

Lemma searched_groups_witness :
  str "AA" <> []
  /\ forallb not_space (str "AA") = true
  /\ contains_str (str "AA") (entry "old.example" "AA" (Some yesterday)) = true.
Proof.
  apply (searched_groups (entry "old.example" "AA" (Some yesterday))).
  vm_compute. reflexivity.
Defined.

Lemma pfx_path_ends_in_pfx_witness :
  ends_with ".pfx" (str "/ssl/site.crt" ++ str ".pfx") = true /\ idle = idle.
Proof.
  apply (pfx_path_ends_in_pfx refusing plain arguments idle
           (str "/ssl/site.crt" ++ str ".pfx") idle).
  reflexivity.
Defined.

Lemma bad_pfx_path_aborts_witness :
  exits_with (main refusing plain (arguments_with_pfx "site.p12") idle) 1
    (Some ("Error: The path for PKCS #12 certificate file must end with "
           ++ quote ++ ".pfx" ++ quote ++ " file extension.")) idle.
Proof.
  apply (bad_pfx_path_aborts refusing plain (arguments_with_pfx "site.p12")
           idle 1 "site.p12").
  - reflexivity.
  - discriminate.
  - intros path _. reflexivity.
  - reflexivity.
  - discriminate.
  - vm_compute. reflexivity.
Defined.

Lemma failed_deletion_stops_cleaning_witness :
  clean_entries refusing plain "My" (JStr "CC") listing idle
  = (Raise TypeError, World tt [CertutilDelstore "My" "AA"]).
Proof.
  apply (failed_deletion_stops_cleaning refusing plain "My" (JStr "CC")
           (entry "old.example" "AA" (Some yesterday))
           [entry "forever.example" "BB" None;
            entry "example.com" "CC" (Some yesterday)]
           idle (CertutilDelstore "My" "AA") "old.example"
           (Completed 1 []) tt).
  - exists yesterday, 500, (str "AA").
    repeat split; vm_compute; reflexivity.
  - vm_compute. reflexivity.
  - reflexivity.
  - left. discriminate.
Defined.

Lemma failed_listing_deletes_nothing_witness :
  clean_store refusing plain "My" (JStr "CC") idle
  = (Raise TypeError, World tt [CertutilStore "My"]).
Proof.
  apply (failed_listing_deletes_nothing refusing plain "My" (JStr "CC") idle
           (Completed 1 []) tt).
  - reflexivity.
  - left. discriminate.
Defined.

Lemma degenerate_fingerprints_witness :
  clean_entries (obliging 1 []) plain "My" (JStr []) listing idle = (Ok tt, idle)
  /\ clean_entries (obliging 1 []) plain "My" (JInt 5) listing idle
     = (Raise TypeError, idle).
Proof.
  destruct (degenerate_fingerprints (obliging 1 []) plain "My" listing idle)
    as [Hempty _].
  split; [exact Hempty|].
  apply (degenerate_fingerprints (obliging 1 []) plain "My"
           [entry "forever.example" "BB" None;
            entry "example.com" "CC" (Some yesterday)] idle).
  discriminate.
Defined.

Lemma successful_deletion_continues_witness :
  clean_entries (obliging 1 []) plain "My" (JStr "CC") listing idle
  = clean_entries (obliging 1 []) plain "My" (JStr "CC")
      [entry "forever.example" "BB" None;
       entry "example.com" "CC" (Some yesterday)]
      (World tt (issued idle ++ [CertutilDelstore "My" "AA"])).
Proof.
  apply (successful_deletion_continues (obliging 1 []) plain "My" (JStr "CC")
           (entry "old.example" "AA" (Some yesterday))
           [entry "forever.example" "BB" None;
            entry "example.com" "CC" (Some yesterday)]
           idle (CertutilDelstore "My" "AA") "old.example"
           (Completed 0 (str "AA" ++ nl
                         ++ "CertUtil: -delstore command completed successfully."))
           tt).
  - exists yesterday, 500, (str "AA").
    repeat split; vm_compute; reflexivity.
  - vm_compute. reflexivity.
  - reflexivity.
  - reflexivity.
  - intros hash [= <-]. vm_compute. reflexivity.
  - vm_compute. reflexivity.
Defined.

End RdsExtras.
